(** * obspy.io.sac.arrayio: the low-level array interface to SAC files

    A shallow embedding of [src/obspy/io/sac/arrayio.py] and the properties
    of its header factory, binary and ASCII codecs, dictionary converters
    and content validator. *)

From Stdlib Require Import ZArith String Ascii Lia.
From stdpp Require Import gmap strings list fin_maps.

Local Open Scope string_scope.
Local Open Scope list_scope.
Local Open Scope Z_scope.

(** ** Python exceptions and results *)

(** The messages of [SacIOError] the module raises. *)
Inductive sac_io_msg :=
| NoSuchFile (source : string)
| CannotOpenFile (dest : string)
| IncorrectByteorder (byteorder : string)
| CannotReadAllHeaderValues
| InconsistentFileSize (length th_length : Z)
| CannotReadAllDataPoints
| NotAValidSacFile
| CannotWriteBuffer
| CannotWriteTraceValues.

Inductive exn :=
| ValueError (msg : string)
| TypeError
| IndexError
| KeyError (key : string)
| NameError (name : string)
| AttributeError
| OverflowError
| UnicodeError
| IOError
| SacIOError (msg : sac_io_msg)
| SacInvalidContentError (msg : string).

Inductive result (A : Type) :=
| Ok (a : A)
| Raise (e : exn).
Arguments Ok {A} a.
Arguments Raise {A} e.

#[global] Instance result_ret : MRet result := fun A a => Ok a.

#[global] Instance result_bind : MBind result := fun A B k r =>
  match r with
  | Ok a => k a
  | Raise e => Raise e
  end.

#[global] Instance result_fmap : FMap result := fun A B f r =>
  match r with
  | Ok a => Ok (f a)
  | Raise e => Raise e
  end.

Definition is_ok {A} (r : result A) : bool :=
  match r with Ok _ => true | Raise _ => false end.

(** ** Machine values *)

Inductive endian := Little | Big.

Definition swapped (e : endian) : endian :=
  match e with Little => Big | Big => Little end.

Definition endian_eqb (a b : endian) : bool :=
  match a, b with
  | Little, Little | Big, Big => true
  | _, _ => false
  end.

(** A float32 is its IEEE-754 binary32 bit pattern, [0 <= b < 2^32]. *)
Definition f4 := Z.

Definition f4_is_nan (b : f4) : bool :=
  (Z.land b 0x7F800000 =? 0x7F800000) && negb (Z.land b 0x007FFFFF =? 0).

Definition f4_is_zero (b : f4) : bool := Z.land b 0x7FFFFFFF =? 0.

(** [a == b] on float32: false on NaN, and the two zeros are equal. *)
Definition f4_eqb (a b : f4) : bool :=
  negb (f4_is_nan a) && negb (f4_is_nan b)
  && ((a =? b) || (f4_is_zero a && f4_is_zero b)).

(** [a >= 0.0] on float32. *)
Definition f4_ge0 (a : f4) : bool :=
  negb (f4_is_nan a) && ((Z.land a 0x80000000 =? 0) || f4_is_zero a).

(** A numpy array of a numeric dtype: the byte order of the dtype and the
    items as that dtype reads them. *)
Record ndarray (A : Type) := mk_ndarray {
  dtype_order : endian;
  items : list A
}.
Arguments mk_ndarray {A}.
Arguments dtype_order {A}.
Arguments items {A}.

(** [a[i]] *)
Definition getitem {A} (l : list A) (i : nat) : result A :=
  match l !! i with
  | Some x => Ok x
  | None => Raise IndexError
  end.

(** [a[i] = x] *)
Definition setitem {A} (l : list A) (i : nat) (x : A) : result (list A) :=
  if decide (i < length l)%nat then Ok (<[i := x]> l) else Raise IndexError.

(** [l.index(x)] *)
Fixpoint index_from (x : string) (l : list string) (i : nat) : result nat :=
  match l with
  | [] => Raise (ValueError "is not in list")
  | y :: l' => if String.eqb y x then Ok i else index_from x l' (S i)
  end.

Definition index (l : list string) (x : string) : result nat := index_from x l 0.

(** [x in l] *)
Definition inb (x : string) (l : list string) : bool :=
  existsb (String.eqb x) l.

(** [s.startswith(c)] for a one-character prefix. *)
Definition startswith (s : string) (c : ascii) : bool :=
  match s with
  | String a _ => Ascii.eqb a c
  | EmptyString => false
  end.

(** ** Fixed-width string items ([|S8]) *)

Definition NUL : ascii := zero.

Fixpoint rstrip_nul (s : string) : string :=
  match s with
  | EmptyString => EmptyString
  | String a s' =>
      match rstrip_nul s' with
      | EmptyString => if Ascii.eqb a NUL then EmptyString else String a EmptyString
      | r => String a r
      end
  end.

Fixpoint take_str (n : nat) (s : string) : string :=
  match n, s with
  | O, _ => EmptyString
  | S n', String a s' => String a (take_str n' s')
  | S _, EmptyString => EmptyString
  end.

Fixpoint drop_str (n : nat) (s : string) : string :=
  match n, s with
  | O, _ => s
  | S n', String _ s' => drop_str n' s'
  | S _, EmptyString => EmptyString
  end.

Fixpoint pad_right (c : ascii) (n : nat) (s : string) : string :=
  match n, s with
  | O, _ => s
  | S n', String a s' => String a (pad_right c n' s')
  | S n', EmptyString => String c (pad_right c n' EmptyString)
  end.

(** What an [|S8] slot holds after a byte string is assigned to it. *)
Definition S8_store (s : string) : string := pad_right NUL 8 (take_str 8 s).

(** What reading an [|S8] slot gives: trailing NULs are not part of it. *)
Definition S8_read (raw : string) : string := rstrip_nul raw.

(** ** The header tables, [obspy.io.sac.header] *)

Record header_tables := {
  FLOATHDRS : list string;
  INTHDRS : list string;
  STRHDRS : list string;
  FNULL : f4;
  INULL : Z;
  SNULL : string;
  ACCEPTED_VALS : list (string * list Z)
}.

Definition names (pre : string) (ks : list string) : list string :=
  map (String.append pre) ks.

Definition digits : list string :=
  ["0"; "1"; "2"; "3"; "4"; "5"; "6"; "7"; "8"; "9"].

(** Modelled from the spec: the header schema tables of
    [obspy/io/sac/header.py] are not part of the sources at hand.  The
    ordered field names are those of the SAC format (70 floats, 40 ints,
    24 strings, [npts] at int slot 9, the event name in string slots 1 and
    2), the null sentinels are the magic -12345 of each kind, and each
    enumerated field is listed with the integer codes it accepts. *)
Definition sac_header : header_tables := {|
  FLOATHDRS :=
    ["delta"; "depmin"; "depmax"; "scale"; "odelta"; "b"; "e"; "o"; "a";
     "internal0"] ++ names "t" digits ++ ["f"] ++ names "resp" digits ++
    ["stla"; "stlo"; "stel"; "stdp"; "evla"; "evlo"; "evel"; "evdp"; "mag"] ++
    names "user" digits ++
    ["dist"; "az"; "baz"; "gcarc"; "internal1"; "internal2"; "depmen";
     "cmpaz"; "cmpinc"; "xminimum"; "xmaximum"; "yminimum"; "ymaximum";
     "unused6"; "unused7"; "unused8"; "unused9"; "unused10"; "unused11";
     "unused12"];
  INTHDRS :=
    ["nzyear"; "nzjday"; "nzhour"; "nzmin"; "nzsec"; "nzmsec"; "nvhdr";
     "norid"; "nevid"; "npts"; "internal3"; "nwfid"; "nxsize"; "nysize";
     "unused13"; "iftype"; "idep"; "iztype"; "unused14"; "iinst"; "istreg";
     "ievreg"; "ievtyp"; "iqual"; "isynth"; "imagtyp"; "imagsrc";
     "unused15"; "unused16"; "unused17"; "unused18"; "unused19"; "unused20";
     "unused21"; "unused22"; "leven"; "lpspol"; "lovrok"; "lcalda";
     "unused23"];
  STRHDRS :=
    ["kstnm"; "kevnm"; "kevnm2"; "khole"; "ko"; "ka"] ++ names "kt" digits ++
    ["kf"; "kuser0"; "kuser1"; "kuser2"; "kcmpnm"; "knetwk"; "kdatrd";
     "kinst"];
  FNULL := 0xC640E400;
  INULL := -12345;
  SNULL := "-12345  ";
  ACCEPTED_VALS :=
    [("iftype", [1; 2; 3; 4; 51]);
     ("idep", [5; 6; 7; 8; 50]);
     ("iztype", [5; 9; 10; 11; 12; 13; 14; 15; 16; 17; 18; 19; 20; 21; 22]);
     ("ievtyp", [5; 37; 38; 39; 40; 41; 42; 43; 72; 73; 74; 75; 76; 77; 78;
                 79; 80; 81; 82; 83; 84; 85; 86]);
     ("iqual", [44; 45; 46; 47; 48; 49]);
     ("isynth", [49]);
     ("imagtyp", [52; 53; 54; 55; 56]);
     ("imagsrc", [57; 58; 59; 60; 61; 62; 63; 64; 65; 66; 67; 68; 69; 70])]
|}.

(** The byte-order characters a dtype string starts with: ['<'], ['='], ['>']. *)
Inductive order_code := LittleCode | NativeCode | BigCode.

(** One of the three header arrays. *)
Inductive harray :=
| HF (hf : ndarray f4)
| HI (hi : ndarray Z)
| HS (hs : list string).

(** ** Byte strings and [from_buffer] *)

Definition byte_val (b : Byte.byte) : Z := Z.of_N (Byte.to_N b).

(** The unsigned integer a little-endian byte string stands for. *)
Definition le_decode (bs : list Z) : Z :=
  fold_right (fun b acc => b + 256 * acc) 0 bs.

Definition u32_of_bytes (e : endian) (bs : list Byte.byte) : Z :=
  match e with
  | Little => le_decode (byte_val <$> bs)
  | Big => le_decode (rev (byte_val <$> bs))
  end.

Definition to_signed32 (u : Z) : Z := if u <? 2 ^ 31 then u else u - 2 ^ 32.

Definition i32_of_bytes (e : endian) (bs : list Byte.byte) : Z :=
  to_signed32 (u32_of_bytes e bs).

(** The four bytes of a 32-bit pattern, least significant first. *)
Definition u32_bytes_le (u : Z) : list Z :=
  [u mod 256; (u / 256) mod 256; (u / 65536) mod 256; (u / 16777216) mod 256].

(** The value the bytes of [u] stand for in the other byte order. *)
Definition byteswap32 (u : Z) : Z := le_decode (rev (u32_bytes_le u)).

Definition byteswap_i32 (z : Z) : Z := to_signed32 (byteswap32 (z mod 2 ^ 32)).

(** [n] consecutive chunks of [k] items. *)
Fixpoint chunks {A} (k n : nat) (l : list A) : list (list A) :=
  match n with
  | O => []
  | S n' => take k l :: chunks k n' (drop k l)
  end.

Definition buffer_items {A} (itemsize : nat) (decode : list Byte.byte -> A)
    (data : list Byte.byte) : result (list A) :=
  if (length data mod itemsize =? 0)%nat
  then Ok (decode <$> chunks itemsize (length data / itemsize) data)
  else Raise (ValueError "buffer size must be a multiple of element size").

(** Modelled from the spec: [from_buffer] of [obspy/core/compatibility.py] is
    not part of the sources at hand.  It interprets the bytes read as
    consecutive items of the dtype (4-byte floats or ints under the dtype's
    byte order, raw 8-byte string slots), as [np.frombuffer] does: an empty
    buffer gives an empty array, and a buffer that is not a whole number of
    items is refused with [ValueError]. *)
Definition from_buffer_f4 (data : list Byte.byte) (e : endian)
  : result (ndarray f4) :=
  mk_ndarray e <$> buffer_items 4 (u32_of_bytes e) data.

Definition from_buffer_i4 (data : list Byte.byte) (e : endian)
  : result (ndarray Z) :=
  mk_ndarray e <$> buffer_items 4 (i32_of_bytes e) data.

Definition from_buffer_S8 (data : list Byte.byte) : result (list string) :=
  buffer_items 8 string_of_list_byte data.

(** [a.newbyteorder('S')]: the dtype changes to the other byte order and the
    bytes stay, so each item reads as its byte-swapped value. *)
Definition newbyteorder_f4 (a : ndarray f4) : ndarray f4 :=
  mk_ndarray (swapped (dtype_order a)) (byteswap32 <$> items a).

Definition newbyteorder_i4 (a : ndarray Z) : ndarray Z :=
  mk_ndarray (swapped (dtype_order a)) (byteswap_i32 <$> items a).

(** ** File objects *)

Record stream := mk_stream {
  content : list Byte.byte;
  pos : nat;
  closed : bool
}.

(** A computation on the open file: it returns or raises, and leaves the
    file in a new state either way. *)
Definition io (A : Type) : Type := stream -> result A * stream.

#[global] Instance io_ret : MRet io := fun A a s => (Ok a, s).

#[global] Instance io_bind : MBind io := fun A B k m s =>
  match m s with
  | (Ok a, s') => k a s'
  | (Raise e, s') => (Raise e, s')
  end.

Definition raise {A} (e : exn) : io A := fun s => (Raise e, s).

Definition lift {A} (r : result A) : io A := fun s => (r, s).

Definition closed_file : exn := ValueError "I/O operation on closed file".

(** [f.read(n)]: up to [n] bytes from the current position, all the rest
    when [n] is negative. *)
Definition f_read (n : Z) : io (list Byte.byte) := fun s =>
  if closed s then (Raise closed_file, s)
  else
    let rest := drop (pos s) (content s) in
    let got := if n <? 0 then rest else take (Z.to_nat n) rest in
    (Ok got, mk_stream (content s) (pos s + length got) false).

(** [f.tell()] *)
Definition f_tell : io Z := fun s =>
  if closed s then (Raise closed_file, s) else (Ok (Z.of_nat (pos s)), s).

Inductive whence := SEEK_SET | SEEK_END.

(** [f.seek(offset, whence)] *)
Definition f_seek (offset : Z) (w : whence) : io unit := fun s =>
  if closed s then (Raise closed_file, s)
  else
    let target := match w with
                  | SEEK_SET => offset
                  | SEEK_END => Z.of_nat (length (content s)) + offset
                  end in
    if target <? 0 then (Raise IOError, s)
    else (Ok tt, mk_stream (content s) (Z.to_nat target) false).

(** [f.close()] *)
Definition f_close : io unit := fun s =>
  (Ok tt, mk_stream (content s) (pos s) true).

(** What [read_sac] is given: a path, or an open file object. *)
Inductive source :=
| Path (name : string)
| FileObj (f : stream).

Section ArrayIO.

(** The header tables the module imports as [HD], and the byte order of the
    platform, [sys.byteorder]. *)
Variable HD : header_tables.
Variable sys_byteorder : endian.

(** The byte order of [np.dtype(byteorder + 'f4')]. *)
Definition dtype_of (byteorder : order_code) : endian :=
  match byteorder with
  | LittleCode => Little
  | NativeCode => sys_byteorder
  | BigCode => Big
  end.

(** ** init_header_arrays *)

(** [for i, hdr in enumerate(HD.INTHDRS): if hdr.startswith('l'): hi[i] = 0] *)
Fixpoint zero_logicals (hdrs : list string) (i : nat) (hi : list Z)
  : result (list Z) :=
  match hdrs with
  | [] => Ok hi
  | hdr :: rest =>
      hi' ← (if startswith hdr "l" then setitem hi i 0 else Ok hi);
      zero_logicals rest (S i) hi'
  end.

Definition init_float (byteorder : order_code) : ndarray f4 :=
  mk_ndarray (dtype_of byteorder) (replicate 70 (FNULL HD)).

Definition init_int (byteorder : order_code) : result (ndarray Z) :=
  hi ← zero_logicals (INTHDRS HD) 0 (replicate 40 (INULL HD));
  i ← index (INTHDRS HD) "lcalda";
  hi ← setitem hi i 1;
  Ok (mk_ndarray (dtype_of byteorder) hi).

Definition init_str : list string := replicate 24 (S8_store (SNULL HD)).

Fixpoint init_header_arrays (arrays : list string) (byteorder : order_code)
  : result (list harray) :=
  match arrays with
  | [] => Ok []
  | itype :: rest =>
      a ← (if String.eqb itype "float" then Ok (HF (init_float byteorder))
           else if String.eqb itype "int" then HI <$> init_int byteorder
           else if String.eqb itype "str" then Ok (HS init_str)
           else Raise (ValueError "Unrecognized header array type"));
      out ← init_header_arrays rest byteorder;
      Ok (a :: out)
  end.

(** ** read_sac *)

(** The files on disk, by path. *)
Variable fs : string -> option (list Byte.byte).

Definition byteorder_name (e : endian) : string :=
  match e with Little => "little" | Big => "big" end.

(** [is_valid_byteorder(hi)] *)
Definition is_valid_byteorder (hi : ndarray Z) : result bool :=
  i ← index (INTHDRS HD) "nvhdr";
  nvhdr ← getitem (items hi) i;
  Ok ((0 <? nvhdr) && (nvhdr <? 20)).

Definition sac_data : Type :=
  ndarray f4 * ndarray Z * list string * option (ndarray f4).

(** The three header reads of [read_sac]. *)
Definition read_header_arrays (endian_str : endian)
  : io (ndarray f4 * ndarray Z * list string) :=
  b ← f_read (4 * 70); hf ← lift (from_buffer_f4 b endian_str);
  b ← f_read (4 * 40); hi ← lift (from_buffer_i4 b endian_str);
  b ← f_read (24 * 8); hs ← lift (from_buffer_S8 b);
  mret (hf, hi, hs).

(** The header reads followed by the byte-order check of [read_sac]. *)
Definition read_header (is_byteorder_specified : bool) (byteorder : string)
    (endian_str : endian) : io (ndarray f4 * ndarray Z * list string) :=
  '(hf, hi, hs) ← read_header_arrays endian_str;
  valid ← lift (is_valid_byteorder hi);
  if negb valid then
    if is_byteorder_specified
    then raise (SacIOError (IncorrectByteorder byteorder))
    else mret (newbyteorder_f4 hf, newbyteorder_i4 hi, hs)
  else mret (hf, hi, hs).

(** The [if checksize:] block of [read_sac]. *)
Definition check_file_size (npts : Z) : io unit :=
  cur_pos ← f_tell;
  _ ← f_seek 0 SEEK_END;
  length ← f_tell;
  _ ← f_seek cur_pos SEEK_SET;
  let th_length := 632 + 4 * npts in
  if negb (length =? th_length)
  then raise (SacIOError (InconsistentFileSize length th_length))
  else mret tt.

(** [read_sac] from the header-length check on. *)
Definition read_sac_rest (is_file_name headonly checksize : bool)
    (hdr : ndarray f4 * ndarray Z * list string) : io sac_data :=
  let '(hf, hi, hs) := hdr in
  (* we now have correct headers, let's use their correct byte order. *)
  let endian_str := dtype_order hi in
  _ ← (if negb (length (items hf) =? 70)%nat || negb (length (items hi) =? 40)%nat
          || negb (length hs =? 24)%nat
       then _ ← (if negb is_file_name then f_close else mret tt);
            raise (SacIOError CannotReadAllHeaderValues)
       else mret tt);
  npts ← lift (i ← index (INTHDRS HD) "npts"; getitem (items hi) i);
  _ ← (if checksize then check_file_size npts else mret tt);
  data ← (if headonly then mret None
          else b ← f_read (npts * 4);
               data ← lift (from_buffer_f4 b endian_str);
               if negb (Z.of_nat (length (items data)) =? npts)
               then _ ← f_close; raise (SacIOError CannotReadAllDataPoints)
               else mret (Some data));
  _ ← (if is_file_name then f_close else mret tt);
  mret (hf, hi, hs, data).

(** [read_sac] once [f] and [is_file_name] are known. *)
Definition read_sac_file (is_file_name headonly : bool)
    (byteorder : option string) (checksize : bool) : io sac_data :=
  let is_byteorder_specified := bool_decide (is_Some byteorder) in
  let byteorder := default (byteorder_name sys_byteorder) byteorder in
  endian_str ← (if String.eqb byteorder "little" then mret Little
                else if String.eqb byteorder "big" then mret Big
                else raise (ValueError "Unrecognized byteorder"));
  hdr ← read_header is_byteorder_specified byteorder endian_str;
  read_sac_rest is_file_name headonly checksize hdr.

(** [f = open(source, 'rb')], or [f = source] when the source is a file
    object: the file and [is_file_name]. *)
Definition open_rb (src : source) : result (stream * bool) :=
  match src with
  | Path name =>
      match fs name with
      | Some bytes => Ok (mk_stream bytes 0 false, true)
      | None => Raise IOError
      end
  | FileObj f => Ok (f, false)
  end.

(** [read_sac(source, headonly, byteorder, checksize)]: what it returns or
    raises, and the file object it worked on as it leaves it. *)
Definition read_sac (src : source) (headonly : bool)
    (byteorder : option string) (checksize : bool)
  : result sac_data * option stream :=
  match open_rb src with
  | Ok (f, is_file_name) =>
      let (r, f') := read_sac_file is_file_name headonly byteorder checksize f in
      (r, Some f')
  | Raise e => (Raise e, None)
  end.

(** ** validate_sac_content *)

(** The reductions [data.min()], [data.max()] and [data.mean()] of numpy on
    the items of a non-empty float32 array, and whether
    [UTCDateTime(year, julday, hour, minute, second, microsecond)] can be
    constructed. *)
Variable np_min np_max np_mean : list f4 -> f4.
Variable UTCDateTime_ok : Z -> Z -> Z -> Z -> Z -> Z -> bool.

(** Modelled from the spec: [is_valid_enum_int] of [obspy/io/sac/util.py] is
    not part of the sources at hand.  It is the membership test "is this
    value valid for this enumerated field, optionally allowing null", over
    the accepted values the header tables list for the field. *)
Definition is_valid_enum_int (hdr : string) (val : Z) (allow_null : bool)
  : result bool :=
  match list_find (fun p => fst p = hdr) (ACCEPTED_VALS HD) with
  | Some (_, (_, accepted)) =>
      Ok (existsb (Z.eqb val) accepted || (allow_null && (val =? INULL HD)))
  | None => Raise (KeyError hdr)
  end.

Definition zero_size : exn :=
  ValueError "zero-size array to reduction operation".

(** [data.min()], [data.max()], [data.mean()] with [data] possibly [None]. *)
Definition data_min (data : option (ndarray f4)) : result f4 :=
  match data with
  | None => Raise AttributeError
  | Some a => if items a is [] then Raise zero_size else Ok (np_min (items a))
  end.

Definition data_max (data : option (ndarray f4)) : result f4 :=
  match data with
  | None => Raise AttributeError
  | Some a => if items a is [] then Raise zero_size else Ok (np_max (items a))
  end.

Definition data_mean (data : option (ndarray f4)) : result f4 :=
  match data with
  | None => Raise AttributeError
  | Some a => Ok (np_mean (items a))
  end.

(** [hf[HD.FLOATHDRS.index(hdr)]] and [hi[HD.INTHDRS.index(hdr)]] *)
Definition float_field (hf : ndarray f4) (hdr : string) : result f4 :=
  i ← index (FLOATHDRS HD) hdr; getitem (items hf) i.

Definition int_field (hi : ndarray Z) (hdr : string) : result Z :=
  i ← index (INTHDRS HD) hdr; getitem (items hi) i.

Definition ALL : list string :=
  ["delta"; "logicals"; "data_hdrs"; "enums"; "reftime"; "reltime"].

Definition data_hdrs_msg : string :=
  "Data array is None, empty array, or non-array. Cannot check data headers.".

(** [try: body except (AttributeError, ValueError): raise ValueError(msg)] *)
Definition except_attribute_or_value {A} (body : result A) (msg : string)
  : result A :=
  match body with
  | Raise AttributeError | Raise (ValueError _) => Raise (ValueError msg)
  | r => r
  end.

Definition check_delta (hf : ndarray f4) : result unit :=
  dval ← float_field hf "delta";
  if negb (f4_ge0 dval)
  then Raise (SacInvalidContentError "Header 'delta' must be >= 0.")
  else Ok tt.

Fixpoint check_logicals (hi : ndarray Z) (hdrs : list string) : result unit :=
  match hdrs with
  | [] => Ok tt
  | hdr :: rest =>
      lval ← int_field hi hdr;
      if negb ((lval =? 0) || (lval =? 1) || (lval =? INULL HD))
      then Raise (SacInvalidContentError "Header must be {0, 1, null}.")
      else check_logicals hi rest
  end.

Definition check_data_hdrs (hf : ndarray f4) (data : option (ndarray f4))
  : result unit :=
  except_attribute_or_value
    (depmin ← float_field hf "depmin"; dmin ← data_min data;
     let isMIN := f4_eqb depmin dmin in
     depmax ← float_field hf "depmax"; dmax ← data_max data;
     let isMAX := f4_eqb depmax dmax in
     depmen ← float_field hf "depmen"; dmen ← data_mean data;
     let isMEN := f4_eqb depmen dmen in
     if negb (isMIN && isMAX && isMEN)
     then Raise (SacInvalidContentError "Data headers don't match data array.")
     else Ok tt)
    data_hdrs_msg.

Fixpoint check_enums (hi : ndarray Z) (hdrs : list string) : result unit :=
  match hdrs with
  | [] => Ok tt
  | hdr :: rest =>
      enval ← int_field hi hdr;
      valid ← is_valid_enum_int hdr enval true;
      if negb valid
      then Raise (SacInvalidContentError "Invalid enumerated value")
      else check_enums hi rest
  end.

Definition check_reftime (hi : ndarray Z) : result unit :=
  nzyear ← int_field hi "nzyear";
  nzjday ← int_field hi "nzjday";
  nzhour ← int_field hi "nzhour";
  nzmin ← int_field hi "nzmin";
  nzsec ← int_field hi "nzsec";
  nzmsec ← int_field hi "nzmsec";
  if negb (forallb (fun val => negb (val =? INULL HD))
             [nzyear; nzjday; nzhour; nzmin; nzsec; nzmsec])
  then Raise (SacInvalidContentError "Null reference time values detected.")
  else if UTCDateTime_ok nzyear nzjday nzhour nzmin nzsec nzmsec then Ok tt
       else Raise (SacInvalidContentError "Invalid reference time").

(** The [reltime] test.  The name [val] of its third and fourth branches is
    bound nowhere in the function, so reaching them raises [NameError]; the
    reference header is looked up by its position among the float names, but
    in the int array and against the int null. *)
Definition check_reltime (hi : ndarray Z) : result unit :=
  iztype_val ← int_field hi "iztype";
  valid ← is_valid_enum_int "iztype" iztype_val false;
  if (valid : bool) then
    hdr ← (if iztype_val =? 9 then Ok "b"
           else if iztype_val =? 11 then Ok "o"
           else Raise (NameError "val"));
    i ← index (FLOATHDRS HD) hdr;
    x ← getitem (items hi) i;
    if x =? INULL HD
    then Raise (SacInvalidContentError "Reference header for iztype not set.")
    else Ok tt
  else Raise (SacInvalidContentError "Invalid iztype").

Definition when (b : bool) (check : result unit) : result unit :=
  if b then check else Ok tt.

Definition validate_sac_content (hf : ndarray f4) (hi : ndarray Z)
    (hs : list string) (data : option (ndarray f4)) (tests : list string)
  : result unit :=
  let tests := if inb "all" tests then ALL else tests in
  _ ← (if tests is [] then Raise (ValueError "No validation tests specified.")
       else if existsb (fun itest => negb (inb itest ALL)) tests
            then Raise (ValueError "Unrecognized validataion test specified")
            else Ok tt);
  _ ← when (inb "delta" tests) (check_delta hf);
  _ ← when (inb "logicals" tests)
        (check_logicals hi ["leven"; "lpspol"; "lovrok"; "lcalda"]);
  _ ← when (inb "data_hdrs" tests) (check_data_hdrs hf data);
  _ ← when (inb "enums" tests) (check_enums hi (fst <$> ACCEPTED_VALS HD));
  _ ← when (inb "reftime" tests) (check_reftime hi);
  _ ← when (inb "reltime" tests) (check_reltime hi);
  Ok tt.

(** ** read_sac_ascii *)

(** What [np.array] makes of one token of a line under the dtypes [f4] and
    [i4]: the number it spells, or the exception of the conversion. *)
Variable parse_f4 : list Byte.byte -> result f4.
Variable parse_i4 : list Byte.byte -> result Z.

Definition is_newline (b : Byte.byte) : bool :=
  Byte.eqb b Byte.x0a || Byte.eqb b Byte.x0d.

(** ASCII whitespace, as [bytes.split()] takes it. *)
Definition is_space (b : Byte.byte) : bool :=
  Byte.eqb b Byte.x20 || Byte.eqb b Byte.x09 || Byte.eqb b Byte.x0a
  || Byte.eqb b Byte.x0b || Byte.eqb b Byte.x0c || Byte.eqb b Byte.x0d.

(** [bs.splitlines(True)] on bytes: lines end at [\n], [\r] or [\r\n], and
    keep their ends; [cur] is the line under way, reversed. *)
Fixpoint splitlines_from (cur bs : list Byte.byte) : list (list Byte.byte) :=
  match bs with
  | [] => if cur is [] then [] else [rev cur]
  | b :: rest =>
      if Byte.eqb b Byte.x0a then rev (b :: cur) :: splitlines_from [] rest
      else if Byte.eqb b Byte.x0d then
        match rest with
        | b' :: rest' =>
            if Byte.eqb b' Byte.x0a
            then rev (b' :: b :: cur) :: splitlines_from [] rest'
            else rev (b :: cur) :: splitlines_from [] rest
        | [] => [rev (b :: cur)]
        end
      else splitlines_from (b :: cur) rest
  end.

Definition splitlines (bs : list Byte.byte) : list (list Byte.byte) :=
  splitlines_from [] bs.

(** [bs.rstrip(chars)] *)
Fixpoint rstrip (p : Byte.byte -> bool) (bs : list Byte.byte)
  : list Byte.byte :=
  match bs with
  | [] => []
  | b :: rest =>
      match rstrip p rest with
      | [] => if p b then [] else [b]
      | r => b :: r
      end
  end.

(** [bs.split()] *)
Fixpoint split_from (cur bs : list Byte.byte) : list (list Byte.byte) :=
  match bs with
  | [] => if cur is [] then [] else [rev cur]
  | b :: rest =>
      if is_space b
      then (if cur is [] then split_from [] rest
            else rev cur :: split_from [] rest)
      else split_from (b :: cur) rest
  end.

Definition split (bs : list Byte.byte) : list (list Byte.byte) :=
  split_from [] bs.

Fixpoint traverse {A B} (f : A -> result B) (l : list A) : result (list B) :=
  match l with
  | [] => Ok []
  | x :: l' => y ← f x; ys ← traverse f l'; Ok (y :: ys)
  end.

(** [np.array(rows, dtype=...).ravel()]: the rows must have one length. *)
Definition np_array_ravel {A} (parse : list Byte.byte -> result A)
    (rows : list (list (list Byte.byte))) : result (list A) :=
  match rows with
  | [] => Ok []
  | r :: _ =>
      if forallb (fun r' => (length r' =? length r)%nat) rows
      then traverse parse (concat rows)
      else Raise (ValueError "setting an array element with a sequence.")
  end.

(** [np.fromstring(line, dtype='|S8', count=count)] *)
Definition fromstring_S8 (line : list Byte.byte) (count : nat)
  : result (list string) :=
  if (length line <? 8 * count)%nat
  then Raise (ValueError "string is smaller than requested size")
  else Ok (string_of_list_byte <$> chunks 8 count line).

(** [hs[j:j + 3] = vals] for three values. *)
Definition setslice3 (hs : list string) (j : nat) (vals : list string)
  : result (list string) :=
  if decide (j + 3 <= length hs)%nat
  then Ok (take j hs ++ vals ++ drop (j + 3) hs)
  else Raise (ValueError "could not broadcast input array").

(** [for i, j in enumerate(range(0, 24, 3))]: the eight string lines. *)
Fixpoint read_str_lines (contents : list (list Byte.byte))
    (rows : list nat) (hs : list string) : result (list string) :=
  match rows with
  | [] => Ok hs
  | i :: rest =>
      line ← getitem contents (14 + 8 + i);
      vals ← fromstring_S8 line 3;
      hs ← setslice3 hs (3 * i) vals;
      read_str_lines contents rest hs
  end.

Definition close_if (is_file_name : bool) : io unit :=
  if is_file_name then f_close else mret tt.

(** [read_sac_ascii] once [fh] and [is_file_name] are known.  The message
    of the first error names the file, [fh.name]: the file object is taken
    to have a name, as every file that [open] returns has. *)
Definition read_sac_ascii_file (is_file_name headonly : bool) : io sac_data :=
  contents ← f_read (-1);
  let contents := rstrip is_newline <$> splitlines contents in
  _ ← (if (length contents <? 14 + 8 + 8)%nat
       then raise (SacIOError NotAValidSacFile) else mret tt);
  hf ← lift (np_array_ravel parse_f4 (split <$> take 14 contents));
  let hf := mk_ndarray Little hf in
  hi ← lift (np_array_ravel parse_i4 (split <$> take 8 (drop 14 contents)));
  let hi := mk_ndarray Little hi in
  hs ← lift (out ← init_header_arrays ["str"] NativeCode;
             match out with
             | [HS hs] => Ok hs
             | _ => Raise (ValueError "too many values to unpack")
             end);
  hs ← lift (read_str_lines contents (seq 0 8) hs);
  data ← (if headonly then mret None
          else
            data ← lift (np_array_ravel parse_f4 (split <$> drop 30 contents));
            let data := mk_ndarray Little data in
            npts ← lift (i ← index (INTHDRS HD) "npts"; getitem (items hi) i);
            if negb (Z.of_nat (length (items data)) =? npts)
            then _ ← close_if is_file_name;
                 raise (SacIOError CannotReadAllDataPoints)
            else mret (Some data));
  _ ← close_if is_file_name;
  mret (hf, hi, hs, data).

(** [fh = open(source, 'rb')] of [read_sac_ascii], which turns [IOError]
    into [SacIOError]. *)
Definition open_ascii (src : source) : result (stream * bool) :=
  match src with
  | Path name =>
      match fs name with
      | Some bytes => Ok (mk_stream bytes 0 false, true)
      | None => Raise (SacIOError (NoSuchFile name))
      end
  | FileObj f => Ok (f, false)
  end.

Definition read_sac_ascii (src : source) (headonly : bool)
  : result sac_data * option stream :=
  match open_ascii src with
  | Ok (fh, is_file_name) =>
      let (r, fh') := read_sac_ascii_file is_file_name headonly fh in
      (r, Some fh')
  | Raise e => (Raise e, None)
  end.

(** ** What the claims speak of *)

(** A float header array as the factory leaves it: 70 null floats. *)
Definition null_float_array (byteorder : order_code) (hf : ndarray f4) : Prop :=
  dtype_order hf = dtype_of byteorder /\
  length (items hf) = 70%nat /\
  forall x, x ∈ items hf -> x = FNULL HD.

(** An int header array as the factory leaves it: 40 null ints, but 1 at
    [lcalda] and 0 at the other fields whose name starts with 'l'. *)
Definition null_int_array (byteorder : order_code) (hi : ndarray Z) : Prop :=
  dtype_order hi = dtype_of byteorder /\
  length (items hi) = 40%nat /\
  forall j hdr, INTHDRS HD !! j = Some hdr ->
    (index (INTHDRS HD) "lcalda" = Ok j -> items hi !! j = Some 1) /\
    (index (INTHDRS HD) "lcalda" <> Ok j ->
     items hi !! j = Some (if startswith hdr "l" then 0 else INULL HD)).

(** A string header array as the factory leaves it: 24 null strings. *)
Definition null_str_array (hs : list string) : Prop :=
  length hs = 24%nat /\ forall s, s ∈ hs -> s = S8_store (SNULL HD).

Definition null_array (byteorder : order_code) (kind : string) (a : harray)
  : Prop :=
  match a with
  | HF hf => kind = "float" /\ null_float_array byteorder hf
  | HI hi => kind = "int" /\ null_int_array byteorder hi
  | HS hs => kind = "str" /\ null_str_array hs
  end.

Definition recognized (kind : string) : Prop :=
  kind = "float" \/ kind = "int" \/ kind = "str".

End ArrayIO.

(** ** Sample files *)

Definition byte_of (z : Z) : Byte.byte :=
  default Byte.x00 (Byte.of_N (Z.to_N z)).

(** The four bytes of a 32-bit pattern in the given byte order. *)
Definition u32_to_bytes (e : endian) (u : Z) : list Byte.byte :=
  let le := byte_of <$> u32_bytes_le (u mod 2 ^ 32) in
  match e with Little => le | Big => rev le end.

Definition tobytes (e : endian) (l : list Z) : list Byte.byte :=
  mjoin (u32_to_bytes e <$> l).

(** A null int header with the given [nvhdr] and [npts]. *)
Definition sample_hi (nvhdr npts : Z) : list Z :=
  <[9%nat := npts]> (<[6%nat := nvhdr]> (replicate 40 (-12345))).

(** The 632 header bytes of a file of version 6 with [npts] samples, written
    in byte order [e]. *)
Definition sample_header (e : endian) (npts : Z) : list Byte.byte :=
  tobytes e (replicate 70 0xC640E400) ++ tobytes e (sample_hi 6 npts)
  ++ mjoin (replicate 24 (list_byte_of_string "-12345  ")).

Definition no_files : string -> option (list Byte.byte) := fun _ => None.

(** A file of two samples written little-endian, the same file cut one
    sample short, and a file cut inside the int header. *)
Definition sample_file : stream :=
  mk_stream (sample_header Little 2 ++ tobytes Little [1; 2]) 0 false.

Definition short_data_bytes : list Byte.byte :=
  sample_header Little 2 ++ tobytes Little [1].

Definition short_header_bytes : list Byte.byte :=
  take 400 (sample_header Little 2).

Definition sample_hf : ndarray f4 := mk_ndarray Little (replicate 70 0xC640E400).

Definition sample_after_header : stream :=
  mk_stream (content sample_file) 632 false.

(** A file of two samples written big-endian, and what its header reads
    as when the bytes are taken as little-endian. *)
Definition sample_big_file : stream :=
  mk_stream (sample_header Big 2 ++ tobytes Big [1; 2]) 0 false.

Definition big_as_little_hf : ndarray f4 :=
  mk_ndarray Little (replicate 70 (byteswap32 0xC640E400)).

Definition big_as_little_hi : ndarray Z :=
  mk_ndarray Little (byteswap_i32 <$> sample_hi 6 2).

Definition big_after_header : stream :=
  mk_stream (content sample_big_file) 632 false.

(** ** Sample headers for validation *)

(** [min()], [max()] and [mean()] of a one-sample array: the sample. *)
Definition one_sample (l : list f4) : f4 := default 0x7FC00000 (head l).

Definition any_date : Z -> Z -> Z -> Z -> Z -> Z -> bool :=
  fun _ _ _ _ _ _ => true.

(** A null float header with [depmin], [depmax] and [depmen] set to [x]. *)
Definition stats_hf (x : f4) : ndarray f4 :=
  mk_ndarray Little
    (<[56%nat := x]> (<[2%nat := x]> (<[1%nat := x]> (replicate 70 0xC640E400)))).

(** A null float header with [b] set to [x]. *)
Definition begin_hf (x : f4) : ndarray f4 :=
  mk_ndarray Little (<[5%nat := x]> (replicate 70 0xC640E400)).

(** A null int header with [iztype] and [nzmsec] set. *)
Definition reltime_hi (iztype nzmsec : Z) : ndarray Z :=
  mk_ndarray Little
    (<[17%nat := iztype]> (<[5%nat := nzmsec]> (replicate 40 (-12345)))).

(** ** A sample ASCII file *)

(** The numbers the tokens of the sample file spell. *)
Definition sample_parse_f4 (tok : list Byte.byte) : result f4 :=
  let s := string_of_list_byte tok in
  if String.eqb s "-12345.00" then Ok 0xC640E400
  else if String.eqb s "1.000000" then Ok 0x3F800000
  else Raise (ValueError "could not convert string to float").

Definition sample_parse_i4 (tok : list Byte.byte) : result Z :=
  let s := string_of_list_byte tok in
  if String.eqb s "-12345" then Ok (-12345)
  else if String.eqb s "6" then Ok 6
  else if String.eqb s "2" then Ok 2
  else Raise (ValueError "invalid literal for int()").

Definition LF : string := String (ascii_of_nat 10) EmptyString.

Fixpoint repeat_lines (n : nat) (line : string) : string :=
  match n with
  | O => EmptyString
  | S n' => String.append line (String.append LF (repeat_lines n' line))
  end.

Definition null_float_line : string :=
  "      -12345.00      -12345.00      -12345.00      -12345.00      -12345.00".

Definition null_int_line : string :=
  "    -12345    -12345    -12345    -12345    -12345".

(** The header of version 6 with two samples of 1.0, as 31 lines. *)
Definition sample_ascii_bytes : list Byte.byte :=
  list_byte_of_string
    (String.append (repeat_lines 14 null_float_line)
    (String.append (repeat_lines 1 null_int_line)
    (String.append
       (repeat_lines 1 "    -12345         6    -12345    -12345         2")
    (String.append (repeat_lines 6 null_int_line)
    (String.append (repeat_lines 8 "-12345  -12345  -12345  ")
       (repeat_lines 1 "       1.000000       1.000000")))))).

Definition sample_ascii_file : stream := mk_stream sample_ascii_bytes 0 false.

Definition sample_ascii_read : stream :=
  mk_stream sample_ascii_bytes (length sample_ascii_bytes) false.

(** ** write_sac *)

(** The bytes of the buffers [hf.data], [hi.data] and [hs.data]: four bytes
    an item in the byte order of the dtype, eight bytes a string slot. *)
Definition f4_data (a : ndarray f4) : list Byte.byte :=
  tobytes (dtype_order a) (items a).

Definition i4_data (a : ndarray Z) : list Byte.byte :=
  tobytes (dtype_order a) (items a).

Definition S8_data (hs : list string) : list Byte.byte :=
  mjoin ((fun s => list_byte_of_string (S8_store s)) <$> hs).

(** [a.astype(dtype)] to the same kind of item in byte order [e]: the
    values stay, the dtype changes. *)
Definition astype {A} (e : endian) (a : ndarray A) : ndarray A :=
  mk_ndarray e (items a).

(** What [write_sac] is given: a path, or an open file object with its
    [mode] attribute ([None] for an object that has none, like
    [io.BytesIO]). *)
Inductive dest :=
| DestPath (name : string)
| DestObj (f : stream) (mode : option string).

Definition has_char (c : ascii) (s : string) : bool :=
  existsb (Ascii.eqb c) (list_ascii_of_string s).

(** Whether a file object of this mode takes [write], and whether it
    writes at the end whatever its position. *)
Definition writable (mode : option string) : bool :=
  match mode with
  | None => true
  | Some m => has_char "w" m || has_char "a" m || has_char "x" m || has_char "+" m
  end.

Definition appends (mode : option string) : bool :=
  match mode with
  | None => false
  | Some m => has_char "a" m
  end.

(** [f.write(bs)]: the bytes replace what the file holds from the current
    position on and extend it where it ends; a gap before the position is
    filled with zero bytes. *)
Definition f_write (mode : option string) (bs : list Byte.byte) : io unit :=
  fun s =>
    if closed s then (Raise closed_file, s)
    else if negb (writable mode) then (Raise IOError, s)
    else if bs is [] then (Ok tt, s)
    else
      let p := if appends mode then length (content s) else pos s in
      let old := content s ++ replicate (p - length (content s)) Byte.x00 in
      (Ok tt, mk_stream (take p old ++ bs ++ drop (p + length bs) old)
                (p + length bs) false).

(** [try: body except Exception as e: handler] *)
Definition io_try {A} (body : io A) (handler : exn -> io A) : io A := fun s =>
  match body s with
  | (Raise e, s') => handler e s'
  | r => r
  end.

Section WriteIO.

(** The files on disk, by path, and whether [open] for writing is permitted
    at a path. *)
Variable fs : string -> option (list Byte.byte).
Variable can_open : string -> bool.

(** [f = open(dest, fmode)] with [fmode] one of ['wb+'] (the file is made
    anew) and ['rb+'] (the file must be there), or [f = dest]: the file, its
    mode and [is_file_name]. *)
Definition open_dest (d : dest) (fmode : string)
  : result (stream * option string * bool) :=
  match d with
  | DestPath name =>
      if can_open name then
        if String.eqb fmode "wb+" then Ok (mk_stream [] 0 false, Some fmode, true)
        else match fs name with
             | Some bytes => Ok (mk_stream bytes 0 false, Some fmode, true)
             | None => Raise (SacIOError (CannotOpenFile name))
             end
      else Raise (SacIOError (CannotOpenFile name))
  | DestObj f mode => Ok (f, mode, false)
  end.

(** [write_sac] once [f] and [is_file_name] are known. *)
Definition write_sac_file (mode : option string) (is_file_name : bool)
    (hf : ndarray f4) (hi : ndarray Z) (hs : list string)
    (data : option (ndarray f4)) (byteorder : option string) : io unit :=
  (* [f.mode] is looked at only when [data is None]; the test leads to a
     warning at most *)
  _ ← (match data, mode with
       | None, None => raise AttributeError
       | _, _ => mret tt
       end);
  '(hf, hi, data) ←
    (match byteorder with
     | None => mret (hf, hi, data)
     | Some b =>
         if String.eqb b "" then mret (hf, hi, data)
         else
           endian_str ← (if String.eqb b "little" then mret Little
                         else if String.eqb b "big" then mret Big
                         else raise (ValueError "Unrecognized byteorder"));
           mret (astype endian_str hf, astype endian_str hi,
                 astype endian_str <$> data)
     end);
  _ ← io_try
        (_ ← f_write mode (f4_data hf);
         _ ← f_write mode (i4_data hi);
         _ ← f_write mode (S8_data hs);
         match data with
         | Some d => f_write mode (f4_data d)
         | None => mret tt
         end)
        (fun e =>
           _ ← close_if is_file_name;
           (* the message names the file: [f.name] *)
           match mode with
           | None => raise AttributeError
           | Some _ => raise (SacIOError CannotWriteBuffer)
           end);
  close_if is_file_name.

(** [write_sac(dest, hf, hi, hs, data, byteorder)]: what it returns or
    raises, and the file object it worked on as it leaves it. *)
Definition write_sac (d : dest) (hf : ndarray f4) (hi : ndarray Z)
    (hs : list string) (data : option (ndarray f4))
    (byteorder : option string) : result unit * option stream :=
  let fmode := if data is None then "rb+" else "wb+" in
  match open_dest d fmode with
  | Ok (f, mode, is_file_name) =>
      let (r, f') := write_sac_file mode is_file_name hf hi hs data byteorder f in
      (r, Some f')
  | Raise e => (Raise e, None)
  end.

End WriteIO.

(** The bytes of a binary SAC file that holds these arrays. *)
Definition sac_file_bytes (hf : ndarray f4) (hi : ndarray Z) (hs : list string)
    (data : ndarray f4) : list Byte.byte :=
  f4_data hf ++ i4_data hi ++ S8_data hs ++ f4_data data.

(** The 632 bytes of the header of such a file. *)
Definition sac_header_bytes (hf : ndarray f4) (hi : ndarray Z)
    (hs : list string) : list Byte.byte :=
  f4_data hf ++ i4_data hi ++ S8_data hs.

(** ** The header dictionary converters *)

(** A value of a header dictionary: a float32, an int or a text. *)
Inductive pyval :=
| PyFloat (x : f4)
| PyInt (n : Z)
| PyStr (s : string).

(** [dict(items)]: a later pair replaces an earlier one of the same key. *)
Definition dict_of (kvs : list (string * pyval)) : gmap string pyval :=
  foldl (fun m kv => <[fst kv := snd kv]> m) ∅ kvs.

Section Converters.

Variable HD : header_tables.
Variable sys_byteorder : endian.

(** [val.decode()]: the text the bytes spell in UTF-8, or the exception;
    and [a + b] on two values that are not both texts. *)
Variable decode : string -> result string.
Variable num_add : pyval -> pyval -> result pyval.

Definition py_add (a b : pyval) : result pyval :=
  match a, b with
  | PyStr s, PyStr t => Ok (PyStr (String.append s t))
  | _, _ => num_add a b
  end.

(** [[(key, val) for (key, val) in zip(HD.FLOATHDRS, hf) if val != HD.FNULL]];
    with [nulls] every pair is kept. *)
Definition float_pairs (nulls : bool) (hf : ndarray f4)
  : list (string * pyval) :=
  (fun kv => (fst kv, PyFloat (snd kv))) <$>
    List.filter (fun kv => nulls || negb (f4_eqb (snd kv) (FNULL HD)))
      (zip (FLOATHDRS HD) (items hf)).

Definition int_pairs (nulls : bool) (hi : ndarray Z) : list (string * pyval) :=
  (fun kv => (fst kv, PyInt (snd kv))) <$>
    List.filter (fun kv => nulls || negb (snd kv =? INULL HD))
      (zip (INTHDRS HD) (items hi)).

(** The items of [hs] come without their trailing NULs. *)
Definition str_pairs (nulls : bool) (hs : list string)
  : result (list (string * pyval)) :=
  traverse (fun kv => s ← decode (snd kv); Ok (fst kv, PyStr s))
    (List.filter (fun kv => nulls || negb (String.eqb (snd kv) (SNULL HD)))
       (zip (STRHDRS HD) (S8_read <$> hs))).

(** [header_arrays_to_dict(hf, hi, hs, nulls)] *)
Definition header_arrays_to_dict (hf : ndarray f4) (hi : ndarray Z)
    (hs : list string) (nulls : bool) : result (gmap string pyval) :=
  strs ← str_pairs nulls hs;
  let header := dict_of (float_pairs nulls hf ++ int_pairs nulls hi ++ strs) in
  match header !! "kevnm2" with
  | Some v2 =>
      match header !! "kevnm" with
      | Some v1 =>
          v ← py_add v1 v2; Ok (<["kevnm" := v]> (delete "kevnm2" header))
      | None => Ok (<["kevnm" := v2]> (delete "kevnm2" header))
      end
  | None => Ok header
  end.

(** What [hf[i] = value], [hi[i] = value] and [hs[i] = value] store for a
    value of the dictionary, or the exception of the conversion; and the
    exception of [value[0:8]] on a value that is not a text. *)
Variable store_f4 : pyval -> result f4.
Variable store_i4 : pyval -> result Z.
Variable store_S8 : pyval -> result string.
Variable not_subscriptable : pyval -> exn.

Definition is_ascii (c : ascii) : bool := (nat_of_ascii c <? 128)%nat.

(** ['{:<8s}'.format(value[0:8])] and ['{:<8s}'.format(value[8:16])], both
    encoded with [.encode('ascii', 'strict')]. *)
Definition kevnm_halves (value : pyval) : result (string * string) :=
  match value with
  | PyStr s =>
      let kevnm := pad_right " " 8 (take_str 8 s) in
      let kevnm2 := pad_right " " 8 (take_str 8 (drop_str 8 s)) in
      if forallb is_ascii (list_ascii_of_string kevnm)
      then if forallb is_ascii (list_ascii_of_string kevnm2)
           then Ok (kevnm, kevnm2) else Raise UnicodeError
      else Raise UnicodeError
  | _ => Raise (not_subscriptable value)
  end.

(** [a[i] = x] where the stored item is the conversion of a value: the
    index is checked first. *)
Definition store_at {A} (l : list A) (i : nat) (x : result A)
  : result (list A) :=
  _ ← getitem l i; x ← x; setitem l i x.

(** The loop [for hdr, value in header.items()] of
    [dict_to_header_arrays], on the items of the three arrays. *)
Fixpoint fill_arrays (kvs : list (string * pyval))
    (arrs : list f4 * list Z * list string)
  : result (list f4 * list Z * list string) :=
  match kvs with
  | [] => Ok arrs
  | (hdr, value) :: rest =>
      let '(hf, hi, hs) := arrs in
      arrs' ←
        (if inb hdr (FLOATHDRS HD) then
           i ← index (FLOATHDRS HD) hdr;
           hf ← store_at hf i (store_f4 value); Ok (hf, hi, hs)
         else if inb hdr (INTHDRS HD) then
           i ← index (INTHDRS HD) hdr;
           hi ← store_at hi i (store_i4 value); Ok (hf, hi, hs)
         else if inb hdr (STRHDRS HD) then
           if String.eqb hdr "kevnm" then
             halves ← kevnm_halves value;
             hs ← setitem hs 1 (S8_store (fst halves));
             hs ← setitem hs 2 (S8_store (snd halves));
             Ok (hf, hi, hs)
           else
             i ← index (STRHDRS HD) hdr;
             hs ← store_at hs i (store_S8 value); Ok (hf, hi, hs)
         else Raise (ValueError "Unrecognized header name"));
      fill_arrays rest arrs'
  end.

(** [dict_to_header_arrays(header, byteorder)], the dictionary being given
    by its items in their order. *)
Definition dict_to_header_arrays (header : option (list (string * pyval)))
    (byteorder : order_code)
  : result (ndarray f4 * ndarray Z * list string) :=
  arrays ← init_header_arrays HD sys_byteorder ["float"; "int"; "str"] byteorder;
  match arrays with
  | [HF hf; HI hi; HS hs] =>
      match header with
      | None => Ok (hf, hi, hs)
      | Some kvs =>
          arrs ← fill_arrays kvs (items hf, items hi, hs);
          let '(lf, li, ls) := arrs in
          Ok (mk_ndarray (dtype_order hf) lf, mk_ndarray (dtype_order hi) li, ls)
      end
  | _ => Raise (ValueError "not enough values to unpack")
  end.

End Converters.

(** ** Predicates on file computations *)

(** A computation that neither closes the file nor changes its content. *)
Definition keeps_file {A} (m : io A) : Prop :=
  forall s r s', m s = (r, s') ->
    closed s' = closed s /\ content s' = content s.

(** A computation that does not close, or reopen, the file. *)
Definition keeps_closed_state {A} (m : io A) : Prop :=
  forall s r s', m s = (r, s') -> closed s' = closed s.

(** ** Sample arrays to write *)

Definition all_files_writable : string -> bool := fun _ => true.

Definition sample_hi_array : ndarray Z := mk_ndarray Little (sample_hi 6 2).

Definition sample_hs : list string := replicate 24 "-12345  ".

(** Two samples, 1.0 and 2.0. *)
Definition sample_data : ndarray f4 := mk_ndarray Little [0x3F800000; 0x40000000].

Definition written_big : list Byte.byte :=
  sac_file_bytes (astype Big sample_hf) (astype Big sample_hi_array) sample_hs
    (astype Big sample_data).

Definition one_file (name : string) (bytes : list Byte.byte)
  : string -> option (list Byte.byte) :=
  fun n => if String.eqb n name then Some bytes else None.

(** ** Sample dictionary conversions *)

(** What the conversions give on the values the samples hold: a float32
    for a float field, an int for an int field, an ASCII text for a string
    field. *)
Definition sample_store_f4 (v : pyval) : result f4 :=
  match v with PyFloat x => Ok x | _ => Raise TypeError end.

Definition sample_store_i4 (v : pyval) : result Z :=
  match v with PyInt n => Ok n | _ => Raise TypeError end.

Definition sample_store_S8 (v : pyval) : result string :=
  match v with PyStr s => Ok (S8_store s) | _ => Raise TypeError end.

Definition sample_not_subscriptable (v : pyval) : exn := TypeError.

Definition sample_decode (s : string) : result string := Ok s.

Definition sample_num_add (a b : pyval) : result pyval := Raise TypeError.

(** The int header as [init_header_arrays] makes it, and the float header
    with [delta] set to 1.0. *)
Definition fresh_hi : ndarray Z :=
  mk_ndarray Little (replicate 35 (-12345) ++ [0; 0; 0; 1; -12345]).

Definition delta_hf : ndarray f4 :=
  mk_ndarray Little (<[0%nat := 0x3F800000]> (replicate 70 0xC640E400)).

(** * Properties *)

(** ** Helper lemmas on results, lists and strings *)

Lemma bind_Ok {A B} (r : result A) (k : A -> result B) (b : B) :
  r ≫= k = Ok b -> exists a, r = Ok a /\ k a = Ok b.
Proof. destruct r as [a|e]; simpl; [eauto | discriminate]. Qed.

Lemma setitem_Ok {A} (l : list A) (i : nat) (x : A) :
  (i < length l)%nat -> setitem l i x = Ok (<[i := x]> l).
Proof. intros H. unfold setitem. destruct (decide _); [done | lia]. Qed.

Lemma index_from_Ok x l i j :
  index_from x l i = Ok j ->
  (i <= j)%nat /\ l !! (j - i)%nat = Some x /\
  forall k y, (k < j - i)%nat -> l !! k = Some y -> y <> x.
Proof.
  revert i. induction l as [|y l IH]; intros i; simpl; [discriminate|].
  destruct (String.eqb_spec y x) as [->|Hne].
  - intros [= <-]. rewrite Nat.sub_diag. split; [lia|]. split; [done|]. lia.
  - intros H. apply IH in H as (Hle & Hl & Hf).
    split; [lia|]. replace (j - i)%nat with (S (j - S i)) by lia.
    split; [done|]. intros [|k] z Hk; simpl.
    + by intros [= ->].
    + apply Hf. lia.
Qed.

Lemma index_from_In x l i :
  x ∈ l -> exists j, index_from x l i = Ok j.
Proof.
  revert i. induction l as [|y l IH]; intros i Hin; [by apply elem_of_nil in Hin|].
  simpl. destruct (String.eqb_spec y x) as [->|Hne]; [eauto|].
  apply elem_of_cons in Hin as [->|Hin]; [done|]. by apply IH.
Qed.

Lemma index_Ok l x j :
  index l x = Ok j ->
  l !! j = Some x /\ forall k y, (k < j)%nat -> l !! k = Some y -> y <> x.
Proof.
  intros H. apply index_from_Ok in H as (_ & Hl & Hf).
  rewrite Nat.sub_0_r in Hl, Hf. done.
Qed.

Section InitProperties.

Variable HD : header_tables.
Variable sys_byteorder : endian.

Lemma zero_logicals_app hdrs pre hi :
  length hi = length hdrs ->
  zero_logicals hdrs (length pre) (pre ++ hi)
  = Ok (pre ++ zip_with (fun hdr x => if startswith hdr "l" then 0 else x) hdrs hi).
Proof.
  revert pre hi. induction hdrs as [|hdr hdrs IH]; intros pre [|x hi] Hlen;
    simpl in *; try done.
  assert (Hstep : forall v, zero_logicals hdrs (S (length pre)) (pre ++ v :: hi)
     = Ok (pre ++ v :: zip_with (fun hdr x => if startswith hdr "l" then 0 else x)
                          hdrs hi)).
  { intros v. specialize (IH (pre ++ [v]) hi).
    rewrite length_app, Nat.add_1_r, <- !app_assoc in IH. simpl in IH.
    apply IH. lia. }
  destruct (startswith hdr "l").
  - rewrite setitem_Ok by (rewrite length_app; simpl; lia). simpl.
    replace (<[length pre:=0]> (pre ++ x :: hi)) with (pre ++ 0 :: hi).
    + apply Hstep.
    + replace (length pre) with (length pre + 0)%nat by lia.
      by rewrite insert_app_r.
  - simpl. apply Hstep.
Qed.

Lemma zero_logicals_0 hdrs hi :
  length hi = length hdrs ->
  zero_logicals hdrs 0 hi
  = Ok (zip_with (fun hdr x => if startswith hdr "l" then 0 else x) hdrs hi).
Proof. apply (zero_logicals_app hdrs [] hi). Qed.

Lemma inb_elem_of x l : inb x l = true <-> x ∈ l.
Proof.
  unfold inb. rewrite existsb_exists. split.
  - intros (y & Hin & Heq). apply String.eqb_eq in Heq as ->.
    by apply list_elem_of_In.
  - intros Hin. exists x. split; [by apply list_elem_of_In | apply String.eqb_refl].
Qed.

Lemma init_int_spec byteorder :
  length (INTHDRS HD) = 40%nat ->
  inb "lcalda" (INTHDRS HD) = true ->
  exists hi, init_int HD sys_byteorder byteorder = Ok hi /\
             null_int_array HD sys_byteorder byteorder hi.
Proof.
  intros Hlen Hin. unfold init_int.
  rewrite zero_logicals_0 by (by rewrite length_replicate).
  set (zs := zip_with _ _ _).
  assert (Hzs : length zs = 40%nat).
  { unfold zs. rewrite length_zip_with, length_replicate. lia. }
  assert (Hzj : forall j hdr, INTHDRS HD !! j = Some hdr ->
            zs !! j = Some (if startswith hdr "l" then 0 else INULL HD)).
  { intros j hdr Hj. unfold zs. rewrite lookup_zip_with, Hj.
    rewrite lookup_replicate_2; [done|]. apply lookup_lt_Some in Hj. lia. }
  clearbody zs. simpl.
  apply inb_elem_of in Hin.
  destruct (index_from_In _ _ 0%nat Hin) as [c Hc]. unfold index at 1.
  rewrite Hc. simpl.
  pose proof (index_Ok _ _ _ Hc) as [Hlc _].
  apply lookup_lt_Some in Hlc.
  rewrite setitem_Ok by lia. simpl. eexists; split; [done|].
  split; [done|]. split; [simpl; by rewrite length_insert|].
  intros j hdr Hj. simpl. fold (index (INTHDRS HD) "lcalda"). unfold index.
  rewrite Hc. split.
  - intros [= ->]. apply list_lookup_insert_eq. lia.
  - intros Hne. rewrite list_lookup_insert_ne by congruence. by apply Hzj.
Qed.

Lemma init_float_spec byteorder :
  null_float_array HD sys_byteorder byteorder
    (init_float HD sys_byteorder byteorder).
Proof.
  split; [done|]. split; [apply length_replicate|].
  intros x Hx. unfold init_float, items in Hx.
  by apply elem_of_replicate in Hx as [-> _].
Qed.

Lemma init_str_spec : null_str_array HD (init_str HD).
Proof.
  split; [apply length_replicate|].
  intros s Hs. by apply elem_of_replicate in Hs as [-> _].
Qed.

(** C9: when every requested kind is recognized, [init_header_arrays]
    returns one array per requested kind, in the requested order, each as
    the factory leaves it (70 null floats; 40 null ints except 0 at the
    logical fields and 1 at [lcalda]; 24 null strings); when some requested
    kind is not recognized it raises [ValueError]. *)
Theorem init_header_arrays_spec (arrays : list string) (byteorder : order_code) :
  length (INTHDRS HD) = 40%nat ->
  inb "lcalda" (INTHDRS HD) = true ->
  (Forall recognized arrays ->
   exists out, init_header_arrays HD sys_byteorder arrays byteorder = Ok out /\
               Forall2 (null_array HD sys_byteorder byteorder) arrays out) /\
  (~ Forall recognized arrays ->
   exists msg, init_header_arrays HD sys_byteorder arrays byteorder
               = Raise (ValueError msg)).
Proof.
  intros Hlen Hin.
  destruct (init_int_spec byteorder Hlen Hin) as (hi & Hhi & Hnull).
  induction arrays as [|kind rest [IHok IHbad]]; split.
  - intros _. exists []. split; [done | constructor].
  - intros H. destruct H. constructor.
  - intros Hall. apply Forall_cons in Hall as [Hk Hrest].
    destruct (IHok Hrest) as (out & Hout & Hf2). simpl. rewrite Hout.
    destruct Hk as [-> | [-> | ->]]; simpl.
    + eexists; split; [done|]. constructor; [|done].
      split; [done | apply init_float_spec].
    + rewrite Hhi. simpl. eexists; split; [done|]. by constructor.
    + eexists; split; [done|]. constructor; [|done].
      split; [done | apply init_str_spec].
  - intros Hbad. simpl.
    destruct (String.eqb_spec kind "float") as [->|Hf].
    { simpl. destruct IHbad as [msg ->]; [|by eexists].
      intros H. apply Hbad. constructor; [by left | done]. }
    destruct (String.eqb_spec kind "int") as [->|Hi].
    { rewrite Hhi. simpl. destruct IHbad as [msg ->]; [|by eexists].
      intros H. apply Hbad. constructor; [right; by left | done]. }
    destruct (String.eqb_spec kind "str") as [->|Hs].
    { simpl. destruct IHbad as [msg ->]; [|by eexists].
      intros H. apply Hbad. constructor; [right; by right | done]. }
    simpl. by eexists.
Qed.

End InitProperties.

Lemma init_header_arrays_spec_witness :
  (Forall recognized ["float"; "int"; "str"] ->
   exists out, init_header_arrays sac_header Little ["float"; "int"; "str"]
                 NativeCode = Ok out /\
               Forall2 (null_array sac_header Little NativeCode)
                 ["float"; "int"; "str"] out) /\
  (~ Forall recognized ["float"; "int"; "str"] ->
   exists msg, init_header_arrays sac_header Little ["float"; "int"; "str"]
                 NativeCode = Raise (ValueError msg)).
Proof.
  apply (init_header_arrays_spec sac_header Little ["float"; "int"; "str"]
           NativeCode); reflexivity.
Defined.

(** ** Byte order: the same bytes read in the other order *)

Lemma byte_val_range b : 0 <= byte_val b < 256.
Proof.
  unfold byte_val. pose proof (Byte.to_N_bounded b). lia.
Qed.

Lemma le_decode_4_range b0 b1 b2 b3 :
  0 <= b0 < 256 -> 0 <= b1 < 256 -> 0 <= b2 < 256 -> 0 <= b3 < 256 ->
  0 <= le_decode [b0; b1; b2; b3] < 2 ^ 32.
Proof. intros. unfold le_decode. simpl. lia. Qed.

Lemma byteswap32_le_decode b0 b1 b2 b3 :
  0 <= b0 < 256 -> 0 <= b1 < 256 -> 0 <= b2 < 256 -> 0 <= b3 < 256 ->
  byteswap32 (le_decode [b0; b1; b2; b3]) = le_decode [b3; b2; b1; b0].
Proof.
  intros H0 H1 H2 H3. unfold byteswap32, u32_bytes_le, le_decode. simpl.
  set (u := b0 + 256 * (b1 + 256 * (b2 + 256 * (b3 + 256 * 0)))).
  assert (E0 : u mod 256 = b0) by (unfold u; Z.div_mod_to_equations; lia).
  assert (E1 : (u / 256) mod 256 = b1) by (unfold u; Z.div_mod_to_equations; lia).
  assert (E2 : (u / 65536) mod 256 = b2) by (unfold u; Z.div_mod_to_equations; lia).
  assert (E3 : (u / 16777216) mod 256 = b3) by (unfold u; Z.div_mod_to_equations; lia).
  rewrite E0, E1, E2, E3. lia.
Qed.

Lemma u32_of_bytes_range e bs :
  length bs = 4%nat -> 0 <= u32_of_bytes e bs < 2 ^ 32.
Proof.
  intros Hlen. destruct bs as [|a [|b [|c [|d [|? ?]]]]]; try discriminate.
  pose proof (byte_val_range a). pose proof (byte_val_range b).
  pose proof (byte_val_range c). pose proof (byte_val_range d).
  destruct e; unfold u32_of_bytes;
    change (byte_val <$> [a; b; c; d])
      with [byte_val a; byte_val b; byte_val c; byte_val d];
    change (rev [byte_val a; byte_val b; byte_val c; byte_val d])
      with [byte_val d; byte_val c; byte_val b; byte_val a];
    by apply le_decode_4_range.
Qed.

Lemma u32_of_bytes_swapped e bs :
  length bs = 4%nat -> u32_of_bytes (swapped e) bs = byteswap32 (u32_of_bytes e bs).
Proof.
  intros Hlen. destruct bs as [|a [|b [|c [|d [|? ?]]]]]; try discriminate.
  pose proof (byte_val_range a). pose proof (byte_val_range b).
  pose proof (byte_val_range c). pose proof (byte_val_range d).
  destruct e; unfold u32_of_bytes, swapped;
    change (byte_val <$> [a; b; c; d])
      with [byte_val a; byte_val b; byte_val c; byte_val d];
    change (rev [byte_val a; byte_val b; byte_val c; byte_val d])
      with [byte_val d; byte_val c; byte_val b; byte_val a];
    by rewrite byteswap32_le_decode.
Qed.

Lemma to_signed32_mod u : 0 <= u < 2 ^ 32 -> to_signed32 u mod 2 ^ 32 = u.
Proof.
  intros Hu. unfold to_signed32. destruct (Z.ltb_spec u (2 ^ 31)).
  - apply Z.mod_small. lia.
  - replace (u - 2 ^ 32) with (u + (-1) * 2 ^ 32) by lia.
    rewrite Z.mod_add by lia. apply Z.mod_small. lia.
Qed.

Lemma i32_of_bytes_swapped e bs :
  length bs = 4%nat -> i32_of_bytes (swapped e) bs = byteswap_i32 (i32_of_bytes e bs).
Proof.
  intros Hlen. unfold i32_of_bytes, byteswap_i32.
  rewrite to_signed32_mod by (by apply u32_of_bytes_range).
  by rewrite u32_of_bytes_swapped.
Qed.

Lemma chunks_length {A} (k n : nat) (l : list A) :
  (n * k <= length l)%nat -> Forall (fun c => length c = k) (chunks k n l).
Proof.
  revert l. induction n as [|n IH]; intros l Hlen; simpl; constructor.
  - rewrite length_take. lia.
  - apply IH. rewrite length_drop. lia.
Qed.

Lemma buffer_items_ext {A B} k (d1 : list Byte.byte -> A)
    (d2 : list Byte.byte -> B) (g : A -> B) data :
  k <> 0%nat ->
  (forall bs, length bs = k -> d2 bs = g (d1 bs)) ->
  buffer_items k d2 data = fmap (M:=list) g <$> buffer_items k d1 data.
Proof.
  intros Hk Hd. unfold buffer_items.
  destruct (Nat.eqb_spec (length data `mod` k) 0) as [Hm|]; [|done].
  simpl. f_equal. rewrite <- list_fmap_compose.
  apply Forall_fmap_ext_1.
  eapply Forall_impl.
  - apply chunks_length. pose proof (Nat.div_mod_eq (length data) k). nia.
  - intros bs Hbs. by apply Hd.
Qed.

Lemma from_buffer_f4_swapped data e :
  from_buffer_f4 data (swapped e) = newbyteorder_f4 <$> from_buffer_f4 data e.
Proof.
  unfold from_buffer_f4.
  rewrite (buffer_items_ext 4 (u32_of_bytes e) (u32_of_bytes (swapped e))
             byteswap32) by (done || apply u32_of_bytes_swapped).
  by destruct (buffer_items 4 (u32_of_bytes e) data).
Qed.

Lemma from_buffer_i4_swapped data e :
  from_buffer_i4 data (swapped e) = newbyteorder_i4 <$> from_buffer_i4 data e.
Proof.
  unfold from_buffer_i4.
  rewrite (buffer_items_ext 4 (i32_of_bytes e) (i32_of_bytes (swapped e))
             byteswap_i32) by (done || apply i32_of_bytes_swapped).
  by destruct (buffer_items 4 (i32_of_bytes e) data).
Qed.

Lemma io_bind_Ok {A B} (m : io A) (k : A -> io B) s a s' :
  m s = (Ok a, s') -> (m ≫= k) s = k a s'.
Proof. intros H. unfold mbind, io_bind. by rewrite H. Qed.

Lemma io_bind_Raise {A B} (m : io A) (k : A -> io B) s e s' :
  m s = (Raise e, s') -> (m ≫= k) s = (Raise e, s').
Proof. intros H. unfold mbind, io_bind. by rewrite H. Qed.

Section ReadProperties.

Variable HD : header_tables.
Variable sys_byteorder : endian.
Variable fs : string -> option (list Byte.byte).

Lemma read_header_arrays_swapped e f hf hi hs f1 :
  read_header_arrays e f = (Ok (hf, hi, hs), f1) ->
  read_header_arrays (swapped e) f
  = (Ok (newbyteorder_f4 hf, newbyteorder_i4 hi, hs), f1).
Proof.
  unfold read_header_arrays, mbind, io_bind, lift, mret, io_ret.
  destruct (f_read (4 * 70) f) as [[b1|?] s1]; [|discriminate].
  rewrite from_buffer_f4_swapped.
  destruct (from_buffer_f4 b1 e) as [hf0|?]; simpl; [|discriminate].
  destruct (f_read (4 * 40) s1) as [[b2|?] s2]; [|discriminate].
  rewrite from_buffer_i4_swapped.
  destruct (from_buffer_i4 b2 e) as [hi0|?]; simpl; [|discriminate].
  destruct (f_read (24 * 8) s2) as [[b3|?] s3]; [|discriminate].
  destruct (from_buffer_S8 b3) as [hs0|?]; simpl; [|discriminate].
  by intros [= <- <- <- <-].
Qed.

Lemma read_header_invalid spec name e f hf hi hs f1 :
  read_header_arrays e f = (Ok (hf, hi, hs), f1) ->
  is_valid_byteorder HD hi = Ok false ->
  read_header HD spec name e f
  = if spec then (Raise (SacIOError (IncorrectByteorder name)), f1)
    else (Ok (newbyteorder_f4 hf, newbyteorder_i4 hi, hs), f1).
Proof.
  intros Hread Hvalid. unfold read_header.
  rewrite (io_bind_Ok _ _ _ _ _ Hread).
  assert (Hl : lift (is_valid_byteorder HD hi) f1 = (Ok false, f1))
    by (unfold lift; by rewrite Hvalid).
  rewrite (io_bind_Ok _ _ _ _ _ Hl). by destruct spec.
Qed.

Lemma byteorder_name_eqb e :
  (if String.eqb (byteorder_name e) "little" then mret Little
   else if String.eqb (byteorder_name e) "big" then mret Big
        else raise (ValueError "Unrecognized byteorder")) = (mret e : io endian).
Proof. by destruct e. Qed.

(** C1: when the int header decoded under the assumed byte order fails the
    nvhdr validity predicate, [read_sac] raises [SacIOError] ("Incorrect
    byteorder") if the caller specified the byte order; if not, it goes on
    from the file as the three header reads left it, with the float and int
    headers being what the same header bytes give under the swapped byte
    order. *)
Theorem read_sac_byteorder (src : source) (f f1 : stream) (is_file_name : bool)
    (headonly checksize : bool) (byteorder : option string) (e0 : endian)
    (hf : ndarray f4) (hi : ndarray Z) (hs : list string) :
  open_rb fs src = Ok (f, is_file_name) ->
  default (byteorder_name sys_byteorder) byteorder = byteorder_name e0 ->
  read_header_arrays e0 f = (Ok (hf, hi, hs), f1) ->
  is_valid_byteorder HD hi = Ok false ->
  (is_Some byteorder ->
   read_sac HD sys_byteorder fs src headonly byteorder checksize
   = (Raise (SacIOError (IncorrectByteorder (byteorder_name e0))), Some f1)) /\
  (byteorder = None ->
   read_header_arrays (swapped e0) f
   = (Ok (newbyteorder_f4 hf, newbyteorder_i4 hi, hs), f1) /\
   read_sac HD sys_byteorder fs src headonly byteorder checksize
   = (let (r, f') := read_sac_rest HD is_file_name headonly checksize
                       (newbyteorder_f4 hf, newbyteorder_i4 hi, hs) f1 in
      (r, Some f'))).
Proof.
  intros Hopen Hname Hread Hvalid.
  assert (Hfile :
    read_sac_file HD sys_byteorder is_file_name headonly byteorder checksize f
    = (hdr ← read_header HD (bool_decide (is_Some byteorder))
                (byteorder_name e0) e0;
       read_sac_rest HD is_file_name headonly checksize hdr) f).
  { unfold read_sac_file. rewrite Hname, byteorder_name_eqb. done. }
  unfold read_sac. rewrite Hopen, Hfile. clear Hfile.
  pose proof (fun spec => read_header_invalid spec
                (byteorder_name e0) e0 f hf hi hs f1 Hread Hvalid) as Hhdr.
  split.
  - intros Hsome. rewrite bool_decide_eq_true_2 by done.
    by rewrite (io_bind_Raise _ _ _ _ _ (Hhdr true)).
  - intros ->. split; [by apply read_header_arrays_swapped|].
    rewrite bool_decide_eq_false_2 by (by intros [? ?]).
    by rewrite (io_bind_Ok _ _ _ _ _ (Hhdr false)).
Qed.

End ReadProperties.

Lemma read_sac_byteorder_witness :
  (is_Some (@None string) ->
   read_sac sac_header Little no_files (FileObj sample_big_file) false None true
   = (Raise (SacIOError (IncorrectByteorder (byteorder_name Little))),
      Some big_after_header)) /\
  (@None string = None ->
   read_header_arrays (swapped Little) sample_big_file
   = (Ok (newbyteorder_f4 big_as_little_hf, newbyteorder_i4 big_as_little_hi,
          replicate 24 "-12345  "), big_after_header) /\
   read_sac sac_header Little no_files (FileObj sample_big_file) false None true
   = (let (r, f') := read_sac_rest sac_header false false true
                       (newbyteorder_f4 big_as_little_hf,
                        newbyteorder_i4 big_as_little_hi,
                        replicate 24 "-12345  ") big_after_header in
      (r, Some f'))).
Proof.
  apply (read_sac_byteorder sac_header Little no_files
           (FileObj sample_big_file) sample_big_file big_after_header false
           false true None Little big_as_little_hf big_as_little_hi
           (replicate 24 "-12345  ")); vm_compute; reflexivity.
Defined.

(** ** What a successful header read says about the file *)

Lemma f_read_Ok n s bs s' :
  f_read n s = (Ok bs, s') ->
  closed s = false /\
  s' = mk_stream (content s) (pos s + length bs) false /\
  bs = (if n <? 0 then drop (pos s) (content s)
        else take (Z.to_nat n) (drop (pos s) (content s))).
Proof.
  unfold f_read. destruct (closed s); [discriminate|].
  by intros [= <- <-].
Qed.

Lemma f_read_length n s bs s' :
  f_read n s = (Ok bs, s') -> (length bs <= length (content s) - pos s)%nat.
Proof.
  intros H. apply f_read_Ok in H as (_ & _ & ->).
  destruct (n <? 0); rewrite ?length_take, length_drop; lia.
Qed.

Lemma chunks_count {A} (k n : nat) (l : list A) : length (chunks k n l) = n.
Proof. revert l. induction n as [|n IH]; intros l; simpl; [done | by rewrite IH]. Qed.

Lemma buffer_items_length {A} k (d : list Byte.byte -> A) data l :
  k <> 0%nat -> buffer_items k d data = Ok l ->
  (length l * k = length data)%nat.
Proof.
  intros Hk. unfold buffer_items.
  destruct (Nat.eqb_spec (length data `mod` k) 0) as [Hm|]; [|discriminate].
  intros [= <-]. rewrite length_fmap, chunks_count.
  pose proof (Nat.div_mod_eq (length data) k). nia.
Qed.

Lemma from_buffer_f4_length data e a :
  from_buffer_f4 data e = Ok a -> (length (items a) * 4 = length data)%nat.
Proof.
  unfold from_buffer_f4.
  destruct (buffer_items 4 (u32_of_bytes e) data) as [l|] eqn:E; [|discriminate].
  intros [= <-]. by apply buffer_items_length in E.
Qed.

Lemma from_buffer_i4_length data e a :
  from_buffer_i4 data e = Ok a -> (length (items a) * 4 = length data)%nat.
Proof.
  unfold from_buffer_i4.
  destruct (buffer_items 4 (i32_of_bytes e) data) as [l|] eqn:E; [|discriminate].
  intros [= <-]. by apply buffer_items_length in E.
Qed.

Lemma read_header_arrays_Ok e f hf hi hs f1 :
  read_header_arrays e f = (Ok (hf, hi, hs), f1) ->
  let n := (length (items hf) * 4 + length (items hi) * 4 + length hs * 8)%nat in
  f1 = mk_stream (content f) (pos f + n) false /\
  (n <= length (content f) - pos f)%nat.
Proof.
  unfold read_header_arrays, mbind, io_bind, lift, mret, io_ret.
  destruct (f_read (4 * 70) f) as [[b1|?] s1] eqn:R1; [|discriminate].
  destruct (from_buffer_f4 b1 e) as [hf0|?] eqn:B1; simpl; [|discriminate].
  destruct (f_read (4 * 40) s1) as [[b2|?] s2] eqn:R2; [|discriminate].
  destruct (from_buffer_i4 b2 e) as [hi0|?] eqn:B2; simpl; [|discriminate].
  destruct (f_read (24 * 8) s2) as [[b3|?] s3] eqn:R3; [|discriminate].
  destruct (from_buffer_S8 b3) as [hs0|?] eqn:B3; simpl; [|discriminate].
  intros [= <- <- <- <-].
  apply from_buffer_f4_length in B1. apply from_buffer_i4_length in B2.
  apply buffer_items_length in B3; [|done].
  pose proof (f_read_length _ _ _ _ R1) as L1.
  pose proof (f_read_length _ _ _ _ R2) as L2.
  pose proof (f_read_length _ _ _ _ R3) as L3.
  apply f_read_Ok in R1 as (_ & -> & _).
  apply f_read_Ok in R2 as (_ & -> & _).
  apply f_read_Ok in R3 as (_ & -> & _).
  simpl in *. rewrite B1, B2, B3. split; [f_equal; lia | lia].
Qed.

Lemma check_file_size_spec npts s :
  closed s = false ->
  check_file_size npts s
  = (if Z.of_nat (length (content s)) =? 632 + 4 * npts then Ok tt
     else Raise (SacIOError (InconsistentFileSize
                               (Z.of_nat (length (content s))) (632 + 4 * npts))),
     s).
Proof.
  destruct s as [c p cl]. simpl. intros ->.
  unfold check_file_size, mbind, io_bind, f_tell, f_seek, raise, mret, io_ret.
  simpl.
  replace (Z.of_nat (length c) + 0 <? 0) with false by (symmetry; apply Z.ltb_ge; lia).
  simpl. replace (Z.of_nat p <? 0) with false by (symmetry; apply Z.ltb_ge; lia).
  rewrite !Nat2Z.id, Z.add_0_r, Nat2Z.id.
  by destruct (Z.of_nat (length c) =? 632 + 4 * npts).
Qed.

Section SizeProperties.

Variable HD : header_tables.
Variable sys_byteorder : endian.
Variable fs : string -> option (list Byte.byte).

Lemma read_header_Ok spec name e f hf hi hs f1 :
  read_header HD spec name e f = (Ok (hf, hi, hs), f1) ->
  let n := (length (items hf) * 4 + length (items hi) * 4 + length hs * 8)%nat in
  f1 = mk_stream (content f) (pos f + n) false /\
  (n <= length (content f) - pos f)%nat.
Proof.
  unfold read_header.
  destruct (read_header_arrays e f) as [[[[hf0 hi0] hs0]|?] s1] eqn:R.
  - rewrite (io_bind_Ok _ _ _ _ _ R). unfold lift, mbind, io_bind.
    apply read_header_arrays_Ok in R.
    destruct (is_valid_byteorder HD hi0) as [[|]|?]; simpl;
      [| destruct spec; simpl |]; try discriminate;
      intros [= <- <- <- <-]; simpl; by rewrite ?length_fmap.
  - rewrite (io_bind_Raise _ _ _ _ _ R). discriminate.
Qed.

Lemma read_sac_file_header is_file_name headonly byteorder checksize e0 f :
  default (byteorder_name sys_byteorder) byteorder = byteorder_name e0 ->
  read_sac_file HD sys_byteorder is_file_name headonly byteorder checksize f
  = (hdr ← read_header HD (bool_decide (is_Some byteorder))
              (byteorder_name e0) e0;
     read_sac_rest HD is_file_name headonly checksize hdr) f.
Proof.
  intros Hname. unfold read_sac_file. rewrite Hname.
  by destruct e0.
Qed.

Lemma read_sac_rest_checked is_file_name headonly checksize hf hi hs i npts s :
  length (items hf) = 70%nat -> length (items hi) = 40%nat ->
  length hs = 24%nat ->
  index (INTHDRS HD) "npts" = Ok i -> items hi !! i = Some npts ->
  read_sac_rest HD is_file_name headonly checksize (hf, hi, hs) s
  = (_ ← (if checksize then check_file_size npts else mret tt);
     data ← (if headonly then mret None
             else b ← f_read (npts * 4);
                  data ← lift (from_buffer_f4 b (dtype_order hi));
                  if negb (Z.of_nat (length (items data)) =? npts)
                  then _ ← f_close; raise (SacIOError CannotReadAllDataPoints)
                  else mret (Some data));
     _ ← (if is_file_name then f_close else mret tt);
     mret (hf, hi, hs, data)) s.
Proof.
  intros Hf Hi Hs Hidx Hnpts. unfold read_sac_rest.
  rewrite Hf, Hi, Hs, Hidx. simpl. unfold getitem. rewrite Hnpts. done.
Qed.

Lemma read_data_full npts e s :
  closed s = false -> 0 <= npts ->
  Z.of_nat (length (content s)) = Z.of_nat (pos s) + 4 * npts ->
  exists bs data,
    f_read (npts * 4) s
    = (Ok bs, mk_stream (content s) (length (content s)) false) /\
    from_buffer_f4 bs e = Ok data /\
    Z.of_nat (length (items data)) = npts.
Proof.
  intros Hcl Hn Hlen. unfold f_read. rewrite Hcl.
  replace (npts * 4 <? 0) with false by (symmetry; apply Z.ltb_ge; lia).
  set (bs := take _ _).
  assert (Hbs : length bs = Z.to_nat (npts * 4)).
  { unfold bs. rewrite length_take, length_drop. lia. }
  assert (Hmod : (length bs mod 4 = 0)%nat).
  { rewrite Hbs. replace (Z.to_nat (npts * 4)) with (Z.to_nat npts * 4)%nat by lia.
    apply Nat.Div0.mod_mul. }
  assert (Hdiv : (length bs / 4 = Z.to_nat npts)%nat).
  { rewrite Hbs. replace (Z.to_nat (npts * 4)) with (Z.to_nat npts * 4)%nat by lia.
    by apply Nat.div_mul. }
  exists bs. unfold from_buffer_f4, buffer_items. rewrite Hmod, Hdiv.
  eexists. split; [f_equal; f_equal; lia|]. split; [done|].
  unfold items. rewrite length_fmap, chunks_count. lia.
Qed.

(** C7: once the header is read and its byte order resolved, with
    [checksize=True] [read_sac] raises [SacIOError] exactly when the length of
    the file differs from [632 + 4 * npts], and otherwise returns; the size
    measurement leaves the file object as it found it; with [checksize=False]
    no size error is ever raised. *)
Theorem read_sac_checksize (src : source) (f f1 : stream) (is_file_name : bool)
    (headonly : bool) (byteorder : option string) (e0 : endian)
    (hf : ndarray f4) (hi : ndarray Z) (hs : list string) (i : nat) (npts : Z) :
  open_rb fs src = Ok (f, is_file_name) ->
  pos f = 0%nat ->
  default (byteorder_name sys_byteorder) byteorder = byteorder_name e0 ->
  read_header HD (bool_decide (is_Some byteorder)) (byteorder_name e0) e0 f
  = (Ok (hf, hi, hs), f1) ->
  length (items hf) = 70%nat -> length (items hi) = 40%nat ->
  length hs = 24%nat ->
  index (INTHDRS HD) "npts" = Ok i -> items hi !! i = Some npts ->
  let length_ := Z.of_nat (length (content f)) in
  let th_length := 632 + 4 * npts in
  (exists r, check_file_size npts f1 = (r, f1)) /\
  (length_ <> th_length ->
   fst (read_sac HD sys_byteorder fs src headonly byteorder true)
   = Raise (SacIOError (InconsistentFileSize length_ th_length))) /\
  (length_ = th_length ->
   exists data,
     fst (read_sac HD sys_byteorder fs src headonly byteorder true)
     = Ok (hf, hi, hs, data)) /\
  (forall l t,
     fst (read_sac HD sys_byteorder fs src headonly byteorder false)
     <> Raise (SacIOError (InconsistentFileSize l t))).
Proof.
  intros Hopen Hpos Hname Hhdr Hf Hi Hs Hidx Hnpts length_ th_length.
  pose proof (read_header_Ok _ _ _ _ _ _ _ _ Hhdr) as [Hf1 Hle].
  rewrite Hf, Hi, Hs, Hpos in Hf1, Hle. simpl in Hf1, Hle.
  assert (Hcl : closed f1 = false) by (by subst f1).
  assert (Hc : content f1 = content f) by (by subst f1).
  assert (Hp : pos f1 = 632%nat) by (by subst f1).
  pose proof (check_file_size_spec npts f1 Hcl) as Hcheck.
  rewrite Hc in Hcheck. fold length_ th_length in Hcheck.
  assert (Hrun : forall checksize,
    read_sac HD sys_byteorder fs src headonly byteorder checksize
    = (let (r, f') :=
         (_ ← (if checksize then check_file_size npts else mret tt);
          data ← (if headonly then mret None
                  else b ← f_read (npts * 4);
                       data ← lift (from_buffer_f4 b (dtype_order hi));
                       if negb (Z.of_nat (length (items data)) =? npts)
                       then _ ← f_close;
                            raise (SacIOError CannotReadAllDataPoints)
                       else mret (Some data));
          _ ← (if is_file_name then f_close else mret tt);
          mret (hf, hi, hs, data)) f1 in
       (r, Some f'))).
  { intros checksize. unfold read_sac.
    rewrite Hopen, (read_sac_file_header _ _ _ _ e0) by done.
    rewrite (io_bind_Ok _ _ _ _ _ Hhdr).
    by rewrite (read_sac_rest_checked _ _ _ _ _ _ i npts). }
  split; [eauto|]. split; [|split].
  - intros Hne. rewrite Hrun.
    apply Z.eqb_neq in Hne. rewrite Hne in Hcheck.
    by rewrite (io_bind_Raise _ _ _ _ _ Hcheck).
  - intros Heq. rewrite Hrun.
    assert (Hn : 0 <= npts) by (unfold length_, th_length in Heq; lia).
    apply Z.eqb_eq in Heq as Heqb. rewrite Heqb in Hcheck.
    rewrite (io_bind_Ok _ _ _ _ _ Hcheck).
    destruct headonly.
    + exists None. unfold mbind, io_bind, mret, io_ret, f_close.
      by destruct is_file_name.
    + destruct (read_data_full npts (dtype_order hi) f1 Hcl Hn)
        as (bs & data & Hread & Hbuf & Hlen).
      { rewrite Hc, Hp. unfold length_, th_length in Heq. lia. }
      exists (Some data).
      unfold mbind at 1, io_bind at 1. unfold mbind at 1, io_bind at 1.
      rewrite Hread. unfold lift, mbind, io_bind. rewrite Hbuf.
      apply Z.eqb_eq in Hlen. rewrite Hlen. simpl.
      unfold mret, io_ret, f_close. by destruct is_file_name.
  - intros l t. rewrite Hrun.
    unfold mbind at 1, io_bind at 1. unfold mret at 1, io_ret at 1.
    destruct headonly.
    + unfold mbind, io_bind, mret, io_ret, f_close.
      by destruct is_file_name.
    + unfold mbind at 1, io_bind at 1. unfold mbind at 1, io_bind at 1.
      unfold f_read. rewrite Hcl.
      unfold lift, mbind, io_bind, from_buffer_f4, buffer_items.
      match goal with |- context [(?n =? 0)%nat] => destruct (n =? 0)%nat end;
        simpl; [|done].
      match goal with |- context [negb ?b] => destruct b end; simpl; [|done].
      unfold mret, io_ret, f_close. by destruct is_file_name.
Qed.

End SizeProperties.

Lemma read_sac_checksize_witness :
  let length_ := Z.of_nat (length (content sample_file)) in
  let th_length := 632 + 4 * 2 in
  (exists r, check_file_size 2 sample_after_header = (r, sample_after_header)) /\
  (length_ <> th_length ->
   fst (read_sac sac_header Little no_files (FileObj sample_file) false None true)
   = Raise (SacIOError (InconsistentFileSize length_ th_length))) /\
  (length_ = th_length ->
   exists data,
     fst (read_sac sac_header Little no_files (FileObj sample_file) false None
            true)
     = Ok (sample_hf, mk_ndarray Little (sample_hi 6 2),
           replicate 24 "-12345  ", data)) /\
  (forall l t,
     fst (read_sac sac_header Little no_files (FileObj sample_file) false None
            false)
     <> Raise (SacIOError (InconsistentFileSize l t))).
Proof.
  apply (read_sac_checksize sac_header Little no_files (FileObj sample_file)
           sample_file sample_after_header false false None Little sample_hf
           (mk_ndarray Little (sample_hi 6 2)) (replicate 24 "-12345  ")
           9%nat 2); vm_compute; reflexivity.
Defined.

(** ** Closing the file *)

(** C4 fails on the code.  A caller-supplied file object is closed when the
    data are short and when the header is short; a file opened from a path
    is left open when the header is short and when the size check fails.
    Only on success does [read_sac] close exactly the file it opened. *)
Theorem read_sac_close_paths :
  let files : string -> option (list Byte.byte) := fun name =>
    if String.eqb name "short_data" then Some short_data_bytes
    else if String.eqb name "short_header" then Some short_header_bytes
    else if String.eqb name "sample" then Some (content sample_file)
    else None in
  read_sac sac_header Little files
    (FileObj (mk_stream short_data_bytes 0 false)) false None false
  = (Raise (SacIOError CannotReadAllDataPoints),
     Some (mk_stream short_data_bytes 636 true)) /\
  read_sac sac_header Little files
    (FileObj (mk_stream short_header_bytes 0 false)) false None false
  = (Raise (SacIOError CannotReadAllHeaderValues),
     Some (mk_stream short_header_bytes 400 true)) /\
  read_sac sac_header Little files (Path "short_header") false None false
  = (Raise (SacIOError CannotReadAllHeaderValues),
     Some (mk_stream short_header_bytes 400 false)) /\
  read_sac sac_header Little files (Path "short_data") false None true
  = (Raise (SacIOError (InconsistentFileSize 636 640)),
     Some (mk_stream short_data_bytes 632 false)) /\
  snd (read_sac sac_header Little files (Path "sample") false None true)
  = Some (mk_stream (content sample_file) 640 true) /\
  snd (read_sac sac_header Little files (FileObj sample_file) false None true)
  = Some (mk_stream (content sample_file) 640 false).
Proof. vm_compute. repeat split. Qed.

(** ** validate_sac_content *)

Section ValidateProperties.
Variable HD : header_tables.
Variable np_min np_max np_mean : list f4 -> f4.
Variable UTCDateTime_ok : Z -> Z -> Z -> Z -> Z -> Z -> bool.

Lemma validate_data_hdrs_only hf hi hs data :
  validate_sac_content HD np_min np_max np_mean UTCDateTime_ok hf hi hs data
    ["data_hdrs"]
  = check_data_hdrs HD np_min np_max np_mean hf data.
Proof.
  unfold validate_sac_content. cbn.
  by destruct (check_data_hdrs _ _ _ _ _ _) as [[]|].
Qed.

(** C5: with the three header fields readable, on a non-empty data array
    the [data_hdrs] test returns exactly when [depmin], [depmax] and
    [depmen] equal [data.min()], [data.max()] and [data.mean()], and raises
    [SacInvalidContentError] otherwise; when [data] is [None] or empty it
    raises [ValueError], not [SacInvalidContentError]. *)
Theorem validate_data_hdrs hf hi hs data depmin depmax depmen :
  float_field HD hf "depmin" = Ok depmin ->
  float_field HD hf "depmax" = Ok depmax ->
  float_field HD hf "depmen" = Ok depmen ->
  let r := validate_sac_content HD np_min np_max np_mean UTCDateTime_ok
             hf hi hs data ["data_hdrs"] in
  match data with
  | Some a =>
      if items a is [] then r = Raise (ValueError data_hdrs_msg)
      else
        let matches :=
          f4_eqb depmin (np_min (items a)) && f4_eqb depmax (np_max (items a))
          && f4_eqb depmen (np_mean (items a)) in
        (r = Ok tt <-> matches = true) /\
        (matches = false -> exists msg, r = Raise (SacInvalidContentError msg))
  | None => r = Raise (ValueError data_hdrs_msg)
  end.
Proof.
  intros Hmin Hmax Hmen r. subst r. rewrite validate_data_hdrs_only.
  unfold check_data_hdrs. rewrite Hmin, Hmax, Hmen.
  destruct data as [a|]; [|reflexivity].
  unfold data_min, data_max, data_mean.
  destruct (items a) as [|x l] eqn:Hitems; [reflexivity|]. cbn.
  destruct (f4_eqb depmin _ && f4_eqb depmax _ && f4_eqb depmen _); cbn.
  - split; [by split | discriminate].
  - split; [split; discriminate | eauto].
Qed.

End ValidateProperties.

Lemma validate_data_hdrs_witness :
  validate_sac_content sac_header one_sample one_sample one_sample any_date
    (stats_hf 0x3F800000) (reltime_hi 9 0) [] (Some (mk_ndarray Little [0x3F800000]))
    ["data_hdrs"] = Ok tt.
Proof.
  apply (validate_data_hdrs sac_header one_sample one_sample one_sample
           any_date (stats_hf 0x3F800000) (reltime_hi 9 0) []
           (Some (mk_ndarray Little [0x3F800000]))
           0x3F800000 0x3F800000 0x3F800000);
    vm_compute; reflexivity.
Defined.

(** C3: the [reltime] test as written.  With [iztype] 9 it accepts a header
    whose [b] is null (the int at the position of [b] among the float names,
    [nzmsec], is what it tests), it rejects a header whose [b] is set when
    that int is null, and with [iztype] 12 it raises [NameError]. *)
Theorem validate_reltime_as_written np_min np_max np_mean UTCDateTime_ok :
  let validate hf hi :=
    validate_sac_content sac_header np_min np_max np_mean UTCDateTime_ok
      hf hi [] None ["reltime"] in
  validate (begin_hf 0xC640E400) (reltime_hi 9 0) = Ok tt /\
  validate (begin_hf 0) (reltime_hi 9 (-12345))
  = Raise (SacInvalidContentError "Reference header for iztype not set.") /\
  validate (begin_hf 0) (reltime_hi 12 0) = Raise (NameError "val").
Proof. vm_compute. repeat split. Qed.

(** * Further properties *)

(** ** Byte-order detection in read_sac *)

Lemma io_bind_inv {A B} (m : io A) (k : A -> io B) s b s' :
  (m ≫= k) s = (Ok b, s') ->
  exists a s1, m s = (Ok a, s1) /\ k a s1 = (Ok b, s').
Proof.
  unfold mbind, io_bind. destruct (m s) as [[a|e] s1]; [eauto | discriminate].
Qed.

Lemma lift_inv {A} (r : result A) s a s' :
  lift r s = (Ok a, s') -> r = Ok a /\ s' = s.
Proof. unfold lift. by intros [= -> ->]. Qed.

Lemma byteswap_i32_version n : 0 < n < 20 -> byteswap_i32 n = n * 16777216.
Proof.
  intros H. unfold byteswap_i32, byteswap32, u32_bytes_le.
  rewrite (Z.mod_small n (2 ^ 32)) by lia.
  rewrite (Z.mod_small n 256) by lia.
  rewrite !Z.div_small by lia.
  change (rev [n; 0 mod 256; 0 mod 256; 0 mod 256]) with [0; 0; 0; n].
  unfold le_decode, to_signed32. simpl fold_right.
  destruct (Z.ltb_spec (0 + 256 * (0 + 256 * (0 + 256 * (n + 256 * 0)))) (2 ^ 31)); lia.
Qed.

Section ByteorderProperties.

Variable HD : header_tables.
Variable fs : string -> option (list Byte.byte).

Lemma is_valid_byteorder_swapped hi :
  is_valid_byteorder HD hi = Ok true ->
  is_valid_byteorder HD (newbyteorder_i4 hi) = Ok false.
Proof.
  destruct hi as [o l]. unfold is_valid_byteorder, newbyteorder_i4.
  cbn [items dtype_order].
  destruct (index (INTHDRS HD) "nvhdr") as [i|]; simpl; [|discriminate].
  unfold getitem. rewrite list_lookup_fmap.
  destruct (l !! i) as [n|]; simpl; [|discriminate].
  intros [= H]. apply andb_true_iff in H as [H1 H2].
  apply Z.ltb_lt in H1, H2. rewrite byteswap_i32_version by lia.
  f_equal. apply andb_false_iff. right. apply Z.ltb_ge. lia.
Qed.

(** X1: no int header is valid under both byte orders: when the bytes decoded
    in one order pass the nvhdr check, the same bytes decoded in the other
    order fail it. *)
Theorem byteorder_detection_unambiguous data e hi hi' :
  from_buffer_i4 data e = Ok hi ->
  from_buffer_i4 data (swapped e) = Ok hi' ->
  is_valid_byteorder HD hi = Ok true ->
  is_valid_byteorder HD hi' = Ok false.
Proof.
  intros H1 H2 Hv. rewrite from_buffer_i4_swapped, H1 in H2.
  injection H2 as <-. by apply is_valid_byteorder_swapped.
Qed.

Lemma read_header_valid spec name e f hf hi hs f1 :
  read_header_arrays e f = (Ok (hf, hi, hs), f1) ->
  is_valid_byteorder HD hi = Ok true ->
  read_header HD spec name e f = (Ok (hf, hi, hs), f1).
Proof.
  intros Hread Hvalid. unfold read_header.
  rewrite (io_bind_Ok _ _ _ _ _ Hread).
  assert (Hl : lift (is_valid_byteorder HD hi) f1 = (Ok true, f1))
    by (unfold lift; by rewrite Hvalid).
  by rewrite (io_bind_Ok _ _ _ _ _ Hl).
Qed.

Lemma swapped_swapped e : swapped (swapped e) = e.
Proof. by destruct e. Qed.

(** With no byte order specified, the header comes out as the order in
    which it is valid decodes it, whichever order the read starts from. *)
Lemma read_header_detected name e e0 f hf hi hs f1 :
  read_header_arrays e f = (Ok (hf, hi, hs), f1) ->
  is_valid_byteorder HD hi = Ok true ->
  read_header HD false name e0 f = (Ok (hf, hi, hs), f1).
Proof.
  intros Hread Hvalid.
  assert (e0 = e \/ e0 = swapped e) as [->| ->] by (destruct e0, e; auto);
    [by apply read_header_valid|].
  pose proof (read_header_arrays_swapped _ _ _ _ _ _ Hread) as Hsw.
  pose proof (read_header_arrays_swapped _ _ _ _ _ _ Hsw) as Hback.
  rewrite swapped_swapped, Hread in Hback. injection Hback as E1 E2.
  rewrite (read_header_invalid HD false name _ _ _ _ _ _ Hsw
             (is_valid_byteorder_swapped _ Hvalid)).
  by rewrite <- E1, <- E2.
Qed.

Lemma read_sac_detected sys src f is_file_name headonly checksize e hf hi hs f1 :
  open_rb fs src = Ok (f, is_file_name) ->
  read_header_arrays e f = (Ok (hf, hi, hs), f1) ->
  is_valid_byteorder HD hi = Ok true ->
  read_sac HD sys fs src headonly None checksize
  = (let (r, f') := read_sac_rest HD is_file_name headonly checksize
                      (hf, hi, hs) f1 in (r, Some f')).
Proof.
  intros Hopen Hread Hvalid. unfold read_sac. rewrite Hopen.
  rewrite (read_sac_file_header HD sys is_file_name headonly None checksize sys)
    by done.
  rewrite bool_decide_eq_false_2 by (by intros [? ?]).
  by rewrite (io_bind_Ok _ _ _ _ _
             (read_header_detected (byteorder_name sys) e sys _ _ _ _ _ Hread Hvalid)).
Qed.

(** X2: with no byte order specified, [read_sac] gives the same outcome on a
    little-endian and on a big-endian platform for every file whose header is
    valid in one of the two byte orders. *)
Theorem read_sac_platform_independent src f is_file_name headonly checksize
    e hf hi hs f1 :
  open_rb fs src = Ok (f, is_file_name) ->
  read_header_arrays e f = (Ok (hf, hi, hs), f1) ->
  is_valid_byteorder HD hi = Ok true ->
  read_sac HD Little fs src headonly None checksize
  = read_sac HD Big fs src headonly None checksize.
Proof.
  intros Hopen Hread Hvalid.
  by rewrite !(read_sac_detected _ _ _ _ _ _ _ _ _ _ _ Hopen Hread Hvalid).
Qed.

End ByteorderProperties.

Lemma byteorder_detection_unambiguous_witness :
  is_valid_byteorder sac_header
    (mk_ndarray Big (byteswap_i32 <$> sample_hi 6 2)) = Ok false.
Proof.
  apply (byteorder_detection_unambiguous sac_header
           (tobytes Little (sample_hi 6 2)) Little
           (mk_ndarray Little (sample_hi 6 2)));
    vm_compute; reflexivity.
Defined.

Lemma read_sac_platform_independent_witness :
  read_sac sac_header Little no_files (FileObj sample_big_file) false None true
  = read_sac sac_header Big no_files (FileObj sample_big_file) false None true.
Proof.
  apply (read_sac_platform_independent sac_header no_files
           (FileObj sample_big_file) sample_big_file false false true Big
           (mk_ndarray Big (replicate 70 0xC640E400))
           (mk_ndarray Big (sample_hi 6 2))
           (replicate 24 "-12345  ") big_after_header);
    vm_compute; reflexivity.
Defined.

(** ** What a successful read_sac guarantees *)

Lemma io_raise_after_inv {A B} (m : io A) (e : exn) s (b : B) s' :
  (_ ← m; raise e) s <> (Ok b, s').
Proof.
  unfold mbind, io_bind, raise. by destruct (m s) as [[?|?] ?].
Qed.

Lemma from_buffer_f4_order data e a :
  from_buffer_f4 data e = Ok a -> dtype_order a = e.
Proof.
  unfold from_buffer_f4. destruct (buffer_items _ _ _); [|discriminate].
  by intros [= <-].
Qed.

Lemma from_buffer_i4_order data e a :
  from_buffer_i4 data e = Ok a -> dtype_order a = e.
Proof.
  unfold from_buffer_i4. destruct (buffer_items _ _ _); [|discriminate].
  by intros [= <-].
Qed.

Lemma read_header_arrays_orders e f hf hi hs f1 :
  read_header_arrays e f = (Ok (hf, hi, hs), f1) ->
  dtype_order hf = e /\ dtype_order hi = e.
Proof.
  unfold read_header_arrays, mbind, io_bind, lift, mret, io_ret.
  destruct (f_read (4 * 70) f) as [[b1|?] s1]; [|discriminate].
  destruct (from_buffer_f4 b1 e) as [hf0|?] eqn:B1; simpl; [|discriminate].
  destruct (f_read (4 * 40) s1) as [[b2|?] s2]; [|discriminate].
  destruct (from_buffer_i4 b2 e) as [hi0|?] eqn:B2; simpl; [|discriminate].
  destruct (f_read (24 * 8) s2) as [[b3|?] s3]; [|discriminate].
  destruct (from_buffer_S8 b3) as [hs0|?]; simpl; [|discriminate].
  intros [= <- <- <- <-].
  split; [by eapply from_buffer_f4_order | by eapply from_buffer_i4_order].
Qed.

Lemma read_header_arrays_open e f r f1 :
  read_header_arrays e f = (Ok r, f1) -> closed f = false.
Proof.
  unfold read_header_arrays. intros H.
  apply io_bind_inv in H as (b & s1 & H & _). by apply f_read_Ok in H as (? & _).
Qed.

Section ReadSuccess.

Variable HD : header_tables.
Variable sys_byteorder : endian.
Variable fs : string -> option (list Byte.byte).

Lemma read_header_orders spec name e f hf hi hs f1 :
  read_header HD spec name e f = (Ok (hf, hi, hs), f1) ->
  dtype_order hf = dtype_order hi /\ closed f = false.
Proof.
  unfold read_header. intros H.
  apply io_bind_inv in H as ([[hf0 hi0] hs0] & s1 & Hread & H).
  pose proof (read_header_arrays_open _ _ _ _ Hread) as Hopen.
  apply read_header_arrays_orders in Hread as [Ef Ei].
  apply io_bind_inv in H as (valid & s2 & _ & H).
  destruct valid; simpl in H.
  - injection H as <- <- <- <-. by rewrite Ef, Ei.
  - destruct spec; [discriminate|]. injection H as <- <- <- <-.
    simpl. by rewrite Ef, Ei.
Qed.

Lemma check_file_size_inv npts s u s' :
  closed s = false -> check_file_size npts s = (Ok u, s') -> s' = s.
Proof.
  intros Hc. rewrite check_file_size_spec by done.
  destruct (_ =? _); [by intros [= _ <-] | discriminate].
Qed.

(** X3: whenever [read_sac] returns, the float and int headers have 70 and
    40 items in one byte order and there are 24 strings; the file object is
    closed exactly when [read_sac] opened it from a path, its content is
    untouched, and it stands just after what was read, within the file: 632
    bytes on, plus the data; the data array, absent under [headonly], has
    [npts] items in the byte order of the headers.  So no file too short
    for its header, or for the samples its header announces, is ever read. *)
Theorem read_sac_success src f is_file_name headonly byteorder checksize
    hf hi hs data f' :
  open_rb fs src = Ok (f, is_file_name) ->
  read_sac HD sys_byteorder fs src headonly byteorder checksize
  = (Ok (hf, hi, hs, data), Some f') ->
  length (items hf) = 70%nat /\ length (items hi) = 40%nat /\
  length hs = 24%nat /\ dtype_order hf = dtype_order hi /\
  closed f' = is_file_name /\ content f' = content f /\
  (pos f' <= length (content f))%nat /\
  exists npts,
    int_field HD hi "npts" = Ok npts /\
    if headonly then data = None /\ pos f' = (pos f + 632)%nat
    else exists d, data = Some d /\ dtype_order d = dtype_order hi /\
           Z.of_nat (length (items d)) = npts /\
           pos f' = (pos f + 632 + 4 * length (items d))%nat.
Proof.
  intros Hopen H. unfold read_sac in H. rewrite Hopen in H.
  destruct (read_sac_file _ _ _ _ _ _ f) as [r f''] eqn:E.
  injection H as -> ->. unfold read_sac_file in E.
  apply io_bind_inv in E as (e0 & s0 & He0 & E).
  assert (s0 = f) as ->.
  { destruct (String.eqb _ "little"); [by injection He0|].
    destruct (String.eqb _ "big"); [by injection He0 | discriminate]. }
  apply io_bind_inv in E as ([[hf0 hi0] hs0] & s1 & Hhdr & E).
  pose proof (read_header_orders _ _ _ _ _ _ _ _ Hhdr) as [Hord Hclosed].
  apply read_header_Ok in Hhdr as [Hs1 Hroom].
  unfold read_sac_rest in E.
  apply io_bind_inv in E as (u & s2 & Hlen & E).
  destruct (Nat.eqb_spec (length (items hf0)) 70) as [Lf|];
    [|by apply io_raise_after_inv in Hlen].
  destruct (Nat.eqb_spec (length (items hi0)) 40) as [Li|];
    [|by apply io_raise_after_inv in Hlen].
  destruct (Nat.eqb_spec (length hs0) 24) as [Ls|];
    [|by apply io_raise_after_inv in Hlen].
  simpl in Hlen. injection Hlen as _ <-.
  rewrite Lf, Li, Ls in Hs1, Hroom. simpl in Hs1, Hroom.
  apply io_bind_inv in E as (npts & s3 & Hnpts & E).
  apply lift_inv in Hnpts as [Hnpts ->].
  apply io_bind_inv in E as (u' & s4 & Hsize & E).
  assert (s4 = s1) as ->.
  { destruct checksize; [|by injection Hsize].
    eapply check_file_size_inv; [|done]. by rewrite Hs1. }
  apply io_bind_inv in E as (data0 & s5 & Hdata & E).
  apply io_bind_inv in E as (u'' & s6 & Hclose & E).
  injection E as <- <- <- <- <-.
  repeat (split; [done|]).
  assert (Hcl : closed s5 = false ->
                s6 = mk_stream (content s5) (pos s5) is_file_name).
  { intros Hc. destruct is_file_name; cbv [f_close mret io_ret] in Hclose;
      injection Hclose as <-; [done|]. destruct s5; simpl in *; by subst. }
  subst s1.
  destruct headonly.
  - cbv [mret io_ret] in Hdata. injection Hdata as <- <-.
    rewrite Hcl by done. simpl.
    repeat (split; [done || lia|]). exists npts. by repeat split.
  - apply io_bind_inv in Hdata as (b & s7 & Hb & Hdata).
    pose proof (f_read_length _ _ _ _ Hb) as Hbl. simpl in Hbl.
    pose proof (f_read_Ok _ _ _ _ Hb) as (_ & -> & _).
    apply io_bind_inv in Hdata as (d & s8 & Hd & Hdata).
    apply lift_inv in Hd as [Hd ->].
    destruct (Z.eqb_spec (Z.of_nat (length (items d))) npts) as [Hn|];
      [|by apply io_raise_after_inv in Hdata].
    cbv [negb mret io_ret] in Hdata. injection Hdata as <- <-.
    rewrite Hcl by done. simpl.
    pose proof (from_buffer_f4_length _ _ _ Hd) as Hl.
    apply from_buffer_f4_order in Hd.
    repeat (split; [done || lia|]). exists npts. split; [done|].
    exists d. repeat split; [done | done | lia].
Qed.

End ReadSuccess.

Lemma read_sac_success_witness :
  closed sample_file = false /\
  exists f' hf hi hs d,
    read_sac sac_header Little no_files (FileObj sample_file) false None true
    = (Ok (hf, hi, hs, Some d), Some f') /\
    closed f' = false /\ pos f' = 640%nat /\ length (items d) = 2%nat.
Proof.
  split; [reflexivity|].
  destruct (read_sac sac_header Little no_files (FileObj sample_file) false
              None true) as [[[[[hf hi] hs] [d|]]|e] [f'|]] eqn:E;
    try (vm_compute in E; discriminate).
  pose proof (read_sac_success sac_header Little no_files
                (FileObj sample_file) sample_file false false None true
                hf hi hs (Some d) f' eq_refl E)
    as (_ & _ & _ & _ & Hc & _ & _ & npts & Hn & d' & Hd & _ & Hl & Hp).
  injection Hd as <-.
  exists f', hf, hi, hs, d. split; [done|]. split; [done|].
  assert (npts = 2) as -> by (vm_compute in E; injection E as <- <- <- <- <-;
                              vm_compute in Hn; by injection Hn).
  split; [simpl in Hp; lia | lia].
Defined.

(** ** read_sac_ascii and the file object *)

Lemma keeps_bind {A B} (m : io A) (k : A -> io B) :
  keeps_file m -> (forall a, keeps_file (k a)) -> keeps_file (m ≫= k).
Proof.
  intros Hm Hk s r s'. unfold mbind, io_bind.
  destruct (m s) as [[a|e] s1] eqn:E; intros H.
  - apply Hm in E as [E1 E2]. apply Hk in H as [H1 H2].
    split; congruence.
  - injection H as <- <-. by apply Hm in E.
Qed.

Lemma keeps_mret {A} (a : A) : keeps_file (mret a).
Proof. by intros s r s' [= <- <-]. Qed.

Lemma keeps_raise {A} e : keeps_file (raise e : io A).
Proof. by intros s r s' [= <- <-]. Qed.

Lemma keeps_lift {A} (x : result A) : keeps_file (lift x).
Proof. by intros s r s' [= <- <-]. Qed.

Lemma keeps_f_read n : keeps_file (f_read n).
Proof.
  intros s r s'. unfold f_read. destruct (closed s) eqn:E.
  - by intros [= <- <-].
  - intros [= <- <-]. simpl. split; congruence.
Qed.

Lemma keeps_if {A} (b : bool) (m1 m2 : io A) :
  keeps_file m1 -> keeps_file m2 -> keeps_file (if b then m1 else m2).
Proof. by destruct b. Qed.

Create HintDb keeps.
#[local] Hint Resolve keeps_mret keeps_raise keeps_lift keeps_f_read : keeps.

Section AsciiProperties.

Variable HD : header_tables.
Variable sys_byteorder : endian.
Variable fs : string -> option (list Byte.byte).
Variable parse_f4 : list Byte.byte -> result f4.
Variable parse_i4 : list Byte.byte -> result Z.

Lemma read_sac_ascii_file_keeps headonly :
  keeps_file (read_sac_ascii_file HD sys_byteorder parse_f4 parse_i4 false
                headonly).
Proof.
  unfold read_sac_ascii_file, close_if.
  repeat first
    [ apply keeps_bind; [|intros ?]
    | apply keeps_if
    | solve [auto with keeps] ].
Qed.

(** X4: [read_sac_ascii] never closes a file object its caller supplies, and
    never changes its content, whatever the file holds and whether the read
    returns or raises. *)
Theorem read_sac_ascii_keeps_caller_file f headonly r f' :
  read_sac_ascii HD sys_byteorder fs parse_f4 parse_i4 (FileObj f) headonly
  = (r, Some f') ->
  closed f' = closed f /\ content f' = content f.
Proof.
  unfold read_sac_ascii, open_ascii.
  destruct (read_sac_ascii_file _ _ _ _ _ _ f) as [r0 f0] eqn:E.
  intros [= <- <-]. by apply read_sac_ascii_file_keeps in E.
Qed.

End AsciiProperties.

Lemma read_sac_ascii_keeps_caller_file_witness :
  closed sample_ascii_read = closed sample_ascii_file /\
  content sample_ascii_read = content sample_ascii_file.
Proof.
  eapply (read_sac_ascii_keeps_caller_file sac_header Little no_files
            sample_parse_f4 sample_parse_i4 sample_ascii_file false _
            sample_ascii_read).
  vm_compute. reflexivity.
Defined.

(** ** What read_sac_ascii returns *)

Lemma pad_right_length c n s :
  (String.length s <= n)%nat -> String.length (pad_right c n s) = n.
Proof.
  revert s. induction n as [|n IH]; intros [|a s]; simpl; try lia.
  - intros _. f_equal. apply IH. simpl. lia.
  - intros H. f_equal. apply IH. lia.
Qed.

Lemma take_str_length n s : (String.length (take_str n s) <= n)%nat.
Proof.
  revert s. induction n as [|n IH]; intros [|a s]; simpl; try lia.
  specialize (IH s). lia.
Qed.

Lemma S8_store_length s : String.length (S8_store s) = 8%nat.
Proof. apply pad_right_length, take_str_length. Qed.

Lemma string_of_list_byte_length l :
  String.length (string_of_list_byte l) = length l.
Proof. induction l as [|b l IH]; simpl; [done | by f_equal]. Qed.

Lemma fromstring_S8_Ok line count vals :
  fromstring_S8 line count = Ok vals ->
  length vals = count /\ Forall (fun s => String.length s = 8%nat) vals.
Proof.
  unfold fromstring_S8.
  destruct (Nat.ltb_spec (length line) (8 * count)); [discriminate|].
  intros [= <-]. rewrite length_fmap, chunks_count. split; [done|].
  apply Forall_fmap. eapply Forall_impl; [apply chunks_length; lia|].
  intros bs Hbs. simpl. by rewrite string_of_list_byte_length.
Qed.

Lemma setslice3_Ok hs j vals hs' :
  length vals = 3%nat -> setslice3 hs j vals = Ok hs' ->
  length hs' = length hs /\
  (Forall (fun s => String.length s = 8%nat) hs ->
   Forall (fun s => String.length s = 8%nat) vals ->
   Forall (fun s => String.length s = 8%nat) hs').
Proof.
  intros Hv. unfold setslice3. destruct (decide _) as [Hj|]; [|discriminate].
  intros [= <-]. split.
  - rewrite !length_app, length_take, length_drop. lia.
  - intros Hhs Hvals. repeat apply Forall_app_2; [|done|].
    + by apply Forall_take.
    + by apply Forall_drop.
Qed.

Lemma read_str_lines_Ok contents rows hs hs' :
  read_str_lines contents rows hs = Ok hs' ->
  Forall (fun s => String.length s = 8%nat) hs ->
  length hs' = length hs /\ Forall (fun s => String.length s = 8%nat) hs'.
Proof.
  revert hs. induction rows as [|i rows IH]; intros hs; simpl.
  - by intros [= <-].
  - intros H Hhs.
    apply bind_Ok in H as (line & _ & H).
    apply bind_Ok in H as (vals & Hvals & H).
    apply bind_Ok in H as (hs1 & Hset & H).
    apply fromstring_S8_Ok in Hvals as [Hlen Hall].
    apply setslice3_Ok in Hset as [Hl1 Hf1]; [|done].
    apply IH in H as [Hl2 Hf2]; [|by apply Hf1].
    split; [congruence | done].
Qed.

Section AsciiResults.

Variable HD : header_tables.
Variable sys_byteorder : endian.
Variable fs : string -> option (list Byte.byte).
Variable parse_f4 : list Byte.byte -> result f4.
Variable parse_i4 : list Byte.byte -> result Z.

Lemma init_str_only :
  init_header_arrays HD sys_byteorder ["str"] NativeCode = Ok [HS (init_str HD)].
Proof. reflexivity. Qed.

Lemma close_if_spec is_file_name s u s' :
  close_if is_file_name s = (Ok u, s') ->
  s' = mk_stream (content s) (pos s) (is_file_name || closed s).
Proof.
  destruct is_file_name; cbv [close_if f_close mret io_ret].
  - by intros [= <-].
  - intros [= <-]. by destruct s.
Qed.

(** X5: whenever [read_sac_ascii] returns, the file had at least 30 lines;
    the float and int headers are little-endian arrays; there are 24
    strings of 8 characters each; the data array, absent under [headonly],
    has [npts] items; and the file object is closed exactly when
    [read_sac_ascii] opened it from a path. *)
Theorem read_sac_ascii_success src f is_file_name headonly hf hi hs data f' :
  open_ascii fs src = Ok (f, is_file_name) ->
  read_sac_ascii HD sys_byteorder fs parse_f4 parse_i4 src headonly
  = (Ok (hf, hi, hs, data), Some f') ->
  (30 <= length (splitlines (drop (pos f) (content f))))%nat /\
  dtype_order hf = Little /\ dtype_order hi = Little /\
  length hs = 24%nat /\ Forall (fun s => String.length s = 8%nat) hs /\
  closed f' = is_file_name /\
  if headonly then data = None
  else exists d npts, data = Some d /\ dtype_order d = Little /\
         int_field HD hi "npts" = Ok npts /\
         Z.of_nat (length (items d)) = npts.
Proof.
  intros Hopen H. unfold read_sac_ascii in H. rewrite Hopen in H.
  destruct (read_sac_ascii_file _ _ _ _ _ _ f) as [r f''] eqn:E.
  injection H as -> ->. unfold read_sac_ascii_file in E.
  apply io_bind_inv in E as (bytes & s1 & Hread & E).
  apply f_read_Ok in Hread as (Hclosed & -> & ->).
  change (-1 <? 0) with true in E. cbv iota in E.
  set (contents := rstrip is_newline <$> splitlines (drop (pos f) (content f))) in E.
  apply io_bind_inv in E as (u & s2 & Hlines & E).
  destruct (Nat.ltb_spec (length contents) (14 + 8 + 8)) as [|Hn];
    [discriminate|].
  cbv [mret io_ret] in Hlines. injection Hlines as _ <-.
  unfold contents in Hn. rewrite length_fmap in Hn.
  apply io_bind_inv in E as (hf0 & s3 & Hhf & E).
  apply lift_inv in Hhf as [_ ->].
  apply io_bind_inv in E as (hi0 & s4 & Hhi & E).
  apply lift_inv in Hhi as [_ ->].
  apply io_bind_inv in E as (hs0 & s5 & Hhs0 & E).
  apply lift_inv in Hhs0 as [Hhs0 ->].
  rewrite init_str_only in Hhs0. injection Hhs0 as <-.
  apply io_bind_inv in E as (hs1 & s6 & Hhs1 & E).
  apply lift_inv in Hhs1 as [Hhs1 ->].
  apply read_str_lines_Ok in Hhs1 as [Hl Hf];
    [|apply Forall_replicate, S8_store_length].
  unfold init_str in Hl. rewrite length_replicate in Hl.
  apply io_bind_inv in E as (data0 & s7 & Hdata & E).
  apply io_bind_inv in E as (u' & s8 & Hclose & E).
  cbv [mret io_ret] in E. injection E as <- <- <- <- <-.
  apply close_if_spec in Hclose as ->. simpl.
  split; [simpl in Hn; lia|]. repeat (split; [done|]).
  destruct headonly.
  - cbv [mret io_ret] in Hdata. injection Hdata as <- <-. simpl.
    by rewrite orb_false_r.
  - apply io_bind_inv in Hdata as (d & s9 & Hd & Hdata).
    apply lift_inv in Hd as [_ ->].
    apply io_bind_inv in Hdata as (npts & s10 & Hnpts & Hdata).
    apply lift_inv in Hnpts as [Hnpts ->].
    destruct (Z.eqb_spec (Z.of_nat (length (items (mk_ndarray Little d)))) npts)
      as [Hlen|]; [|by apply io_raise_after_inv in Hdata].
    cbv [negb mret io_ret] in Hdata. injection Hdata as <- <-. simpl.
    rewrite orb_false_r. split; [done|]. by exists (mk_ndarray Little d), npts.
Qed.

(** X6: a file of fewer than 30 lines given by its path is refused with
    [SacIOError] ("not a valid SAC file") once it has been read to its end
    and before anything is parsed, and it is left open. *)
Theorem read_sac_ascii_too_short name bytes headonly :
  fs name = Some bytes ->
  (length (splitlines bytes) < 30)%nat ->
  read_sac_ascii HD sys_byteorder fs parse_f4 parse_i4 (Path name) headonly
  = (Raise (SacIOError NotAValidSacFile),
     Some (mk_stream bytes (length bytes) false)).
Proof.
  intros Hfile Hn. unfold read_sac_ascii, open_ascii. rewrite Hfile.
  unfold read_sac_ascii_file.
  assert (Hr : f_read (-1) (mk_stream bytes 0 false)
               = (Ok bytes, mk_stream bytes (length bytes) false)).
  { unfold f_read. simpl. by rewrite drop_0. }
  rewrite (io_bind_Ok _ _ _ _ _ Hr).
  erewrite io_bind_Raise; [reflexivity|].
  rewrite length_fmap.
  destruct (Nat.ltb_spec (length (splitlines bytes)) (14 + 8 + 8)) as [|];
    [reflexivity | simpl in *; lia].
Qed.

End AsciiResults.

Lemma read_sac_ascii_success_witness :
  (30 <= length (splitlines (drop (pos sample_ascii_file)
                               (content sample_ascii_file))))%nat /\
  closed sample_ascii_read = false.
Proof.
  destruct (read_sac_ascii_success sac_header Little no_files sample_parse_f4
              sample_parse_i4 (FileObj sample_ascii_file) sample_ascii_file
              false false
              (mk_ndarray Little (replicate 70 0xC640E400))
              (mk_ndarray Little (sample_hi 6 2))
              (replicate 24 "-12345  ")
              (Some (mk_ndarray Little [0x3F800000; 0x3F800000]))
              sample_ascii_read)
    as (H30 & _ & _ & _ & _ & Hc & _); [reflexivity | vm_compute; reflexivity |].
  by split.
Defined.

Lemma read_sac_ascii_too_short_witness :
  read_sac_ascii sac_header Little
    (one_file "short.sac" (list_byte_of_string "not a SAC file"))
    sample_parse_f4 sample_parse_i4 (Path "short.sac") false
  = (Raise (SacIOError NotAValidSacFile),
     Some (mk_stream (list_byte_of_string "not a SAC file") 14 false)).
Proof.
  apply (read_sac_ascii_too_short sac_header Little
           (one_file "short.sac" (list_byte_of_string "not a SAC file"))
           sample_parse_f4 sample_parse_i4 "short.sac"
           (list_byte_of_string "not a SAC file") false);
    vm_compute; (reflexivity || lia).
Defined.

(** ** validate_sac_content on freshly initialised headers *)

Section FreshHeaders.

Variable HD : header_tables.
Variable sys_byteorder : endian.
Variable np_min np_max np_mean : list f4 -> f4.
Variable UTCDateTime_ok : Z -> Z -> Z -> Z -> Z -> Z -> bool.

Local Abbreviation validate :=
  (validate_sac_content HD np_min np_max np_mean UTCDateTime_ok).

Lemma validate_logicals_only hf hi hs data :
  validate hf hi hs data ["logicals"]
  = check_logicals HD hi ["leven"; "lpspol"; "lovrok"; "lcalda"].
Proof.
  unfold validate, validate_sac_content. cbn -[check_logicals].
  by destruct (check_logicals _ _ _) as [[]|].
Qed.

Lemma validate_enums_only hf hi hs data :
  validate hf hi hs data ["enums"]
  = check_enums HD hi (fst <$> ACCEPTED_VALS HD).
Proof.
  unfold validate, validate_sac_content. cbn -[check_enums].
  by destruct (check_enums _ _ _) as [[]|].
Qed.

Lemma validate_reftime_only hf hi hs data :
  validate hf hi hs data ["reftime"] = check_reftime HD UTCDateTime_ok hi.
Proof.
  unfold validate, validate_sac_content. cbn -[check_reftime].
  by destruct (check_reftime _ _ _) as [[]|].
Qed.

(** A field of the int header as the factory leaves it. *)
Lemma null_int_field byteorder hi hdr :
  null_int_array HD sys_byteorder byteorder hi ->
  hdr ∈ INTHDRS HD ->
  exists v, int_field HD hi hdr = Ok v /\
    (v = 1 \/ v = if startswith hdr "l" then 0 else INULL HD) /\
    (hdr <> "lcalda" -> v = if startswith hdr "l" then 0 else INULL HD).
Proof.
  intros (_ & _ & Hnull) Hin.
  destruct (index_from_In hdr (INTHDRS HD) 0 Hin) as [j Hj].
  fold (index (INTHDRS HD) hdr) in Hj.
  pose proof (index_Ok _ _ _ Hj) as [Hlook _].
  destruct (Hnull j hdr Hlook) as [Hone Hother].
  unfold int_field, getitem. rewrite Hj. simpl.
  assert (index (INTHDRS HD) "lcalda" = Ok j \/
          index (INTHDRS HD) "lcalda" <> Ok j) as [Hc|Hc].
  { destruct (index (INTHDRS HD) "lcalda") as [k|e]; [|by right].
    destruct (decide (k = j)) as [->|]; [by left | right; congruence]. }
  - rewrite (Hone Hc). exists 1. split; [done|]. split; [by left|].
    intros Hne. apply index_Ok in Hc as [Hc _]. congruence.
  - rewrite (Hother Hc). eexists. split; [done|]. split; [by right | done].
Qed.

(** X7: the headers [init_header_arrays] makes pass the [logicals] and the
    [enums] tests of [validate_sac_content], for every header table that
    lists the four logical fields and every enumerated field among its 40
    int names. *)
Theorem fresh_header_passes_logicals_enums byteorder hf hs data :
  length (INTHDRS HD) = 40%nat ->
  Forall (fun hdr => hdr ∈ INTHDRS HD) ["leven"; "lpspol"; "lovrok"; "lcalda"] ->
  Forall (fun hdr => hdr ∈ INTHDRS HD /\ startswith hdr "l" = false)
    (fst <$> ACCEPTED_VALS HD) ->
  exists hi, init_int HD sys_byteorder byteorder = Ok hi /\
    validate_sac_content HD np_min np_max np_mean UTCDateTime_ok
      hf hi hs data ["logicals"] = Ok tt /\
    validate_sac_content HD np_min np_max np_mean UTCDateTime_ok
      hf hi hs data ["enums"] = Ok tt.
Proof.
  intros Hlen Hlog Henum.
  assert (Hlc : inb "lcalda" (INTHDRS HD) = true).
  { apply inb_elem_of. by inversion Hlog as [|? ? _ [|? ? _ [|? ? _ [|? ? ? _]]]]. }
  destruct (init_int_spec HD sys_byteorder byteorder Hlen Hlc) as (hi & Hhi & Hnull).
  exists hi. split; [done|]. split.
  - rewrite validate_logicals_only.
    assert (Hall : forall hdr, hdr ∈ ["leven"; "lpspol"; "lovrok"; "lcalda"] ->
              hdr ∈ INTHDRS HD /\ startswith hdr "l" = true).
    { intros hdr Hh. split; [rewrite Forall_forall in Hlog; by apply Hlog|].
      repeat (apply elem_of_cons in Hh as [->|Hh]; [done|]).
      by apply elem_of_nil in Hh. }
    revert Hall. generalize ["leven"; "lpspol"; "lovrok"; "lcalda"].
    induction l as [|hdr rest IH]; intros Hall; [done|].
    destruct (Hall hdr (list_elem_of_here _ _)) as [Hin Hl].
    simpl. destruct (null_int_field byteorder hi hdr Hnull Hin)
      as (v & -> & [->| ->] & _); simpl; rewrite ?Hl; simpl;
      apply IH; intros h Hh; apply Hall; by apply list_elem_of_further.
  - rewrite validate_enums_only.
    assert (Hkeys : forall hdr, hdr ∈ (fst <$> ACCEPTED_VALS HD) ->
              is_valid_enum_int HD hdr (INULL HD) true = Ok true).
    { intros hdr Hk. unfold is_valid_enum_int.
      apply list_elem_of_fmap in Hk as ([k acc] & -> & Hk). simpl.
      destruct (list_find_elem_of (fun p => fst p = k) (ACCEPTED_VALS HD)
                  (k, acc) Hk eq_refl) as [[i [k' acc']] E].
      rewrite E. by rewrite Z.eqb_refl, orb_true_r. }
    induction Henum as [|hdr rest [Hin Hl] _ IH]; [done|].
    simpl. destruct (null_int_field byteorder hi hdr Hnull Hin)
      as (v & -> & _ & Hv).
    rewrite Hv by (intros ->; discriminate). rewrite Hl. simpl.
    rewrite Hkeys by apply list_elem_of_here. simpl.
    apply IH. intros h Hh. apply Hkeys. by apply list_elem_of_further.
Qed.

(** X8: the headers [init_header_arrays] makes fail the [reftime] test with
    [SacInvalidContentError], the reference time being null, for every
    header table that lists the six reference-time fields among its 40 int
    names. *)
Theorem fresh_header_fails_reftime byteorder hf hs data :
  length (INTHDRS HD) = 40%nat ->
  Forall (fun hdr => hdr ∈ INTHDRS HD)
    ["lcalda"; "nzyear"; "nzjday"; "nzhour"; "nzmin"; "nzsec"; "nzmsec"] ->
  exists hi, init_int HD sys_byteorder byteorder = Ok hi /\
    validate_sac_content HD np_min np_max np_mean UTCDateTime_ok
      hf hi hs data ["reftime"]
    = Raise (SacInvalidContentError "Null reference time values detected.").
Proof.
  intros Hlen Hin.
  assert (Hlc : inb "lcalda" (INTHDRS HD) = true).
  { apply inb_elem_of. by inversion Hin. }
  destruct (init_int_spec HD sys_byteorder byteorder Hlen Hlc) as (hi & Hhi & Hnull).
  exists hi. split; [done|]. rewrite validate_reftime_only.
  assert (Hfield : forall hdr,
            hdr ∈ ["nzyear"; "nzjday"; "nzhour"; "nzmin"; "nzsec"; "nzmsec"] ->
            int_field HD hi hdr = Ok (INULL HD)).
  { intros hdr Hh.
    assert (Hi : hdr ∈ INTHDRS HD).
    { rewrite Forall_forall in Hin. apply Hin. by apply list_elem_of_further. }
    destruct (null_int_field byteorder hi hdr Hnull Hi) as (v & -> & _ & Hv).
    rewrite Hv; repeat (apply elem_of_cons in Hh as [->|Hh]; [done|]);
      by apply elem_of_nil in Hh. }
  unfold check_reftime.
  rewrite !Hfield by (repeat first [apply list_elem_of_here | apply list_elem_of_further]).
  simpl. by rewrite Z.eqb_refl.
Qed.

End FreshHeaders.

Lemma fresh_header_passes_logicals_enums_witness :
  exists hi, init_int sac_header Little NativeCode = Ok hi /\
    validate_sac_content sac_header one_sample one_sample one_sample any_date
      sample_hf hi [] None ["logicals"] = Ok tt /\
    validate_sac_content sac_header one_sample one_sample one_sample any_date
      sample_hf hi [] None ["enums"] = Ok tt.
Proof.
  apply (fresh_header_passes_logicals_enums sac_header Little one_sample
           one_sample one_sample any_date NativeCode sample_hf [] None);
    [reflexivity | |];
    repeat (apply Forall_cons; split;
            [first [apply inb_elem_of; reflexivity
                   | split; [apply inb_elem_of|]; reflexivity]|]);
    apply Forall_nil_2.
Defined.

Lemma fresh_header_fails_reftime_witness :
  exists hi, init_int sac_header Little NativeCode = Ok hi /\
    validate_sac_content sac_header one_sample one_sample one_sample any_date
      sample_hf hi [] None ["reftime"]
    = Raise (SacInvalidContentError "Null reference time values detected.").
Proof.
  apply (fresh_header_fails_reftime sac_header Little one_sample
           one_sample one_sample any_date NativeCode sample_hf [] None);
    [reflexivity|];
    repeat (apply Forall_cons; split; [apply inb_elem_of; reflexivity|]);
    apply Forall_nil_2.
Defined.

(** ** How validate_sac_content reads its test names *)

Lemma inb_ext x l1 l2 :
  (forall t, t ∈ l1 <-> t ∈ l2) -> inb x l1 = inb x l2.
Proof.
  intros H. apply Bool.eq_true_iff_eq. rewrite !inb_elem_of. apply H.
Qed.

Lemma existsb_ext_set (f : string -> bool) l1 l2 :
  (forall t, t ∈ l1 <-> t ∈ l2) -> existsb f l1 = existsb f l2.
Proof.
  intros H. apply Bool.eq_true_iff_eq. rewrite !existsb_exists.
  split; intros (x & Hin & Hf); exists x; (split; [|done]);
    apply list_elem_of_In, H, list_elem_of_In, Hin.
Qed.

Section TestNames.

Variable HD : header_tables.
Variable np_min np_max np_mean : list f4 -> f4.
Variable UTCDateTime_ok : Z -> Z -> Z -> Z -> Z -> Z -> bool.

Local Abbreviation validate :=
  (validate_sac_content HD np_min np_max np_mean UTCDateTime_ok).

(** X9: the outcome of [validate_sac_content] depends only on which test
    names are given, not on their order or on repetitions: the tests always
    run in the order delta, logicals, data_hdrs, enums, reftime, reltime. *)
Theorem validate_tests_as_set hf hi hs data tests1 tests2 :
  (forall t, t ∈ tests1 <-> t ∈ tests2) ->
  validate_sac_content HD np_min np_max np_mean UTCDateTime_ok
    hf hi hs data tests1
  = validate_sac_content HD np_min np_max np_mean UTCDateTime_ok
      hf hi hs data tests2.
Proof.
  intros H. unfold validate, validate_sac_content.
  rewrite (inb_ext "all" _ _ H). destruct (inb "all" tests2); [done|].
  rewrite (existsb_ext_set _ _ _ H), !(inb_ext _ _ _ H).
  destruct tests1 as [|a l1], tests2 as [|b l2]; try done.
  - assert (Hb : b ∈ []) by (apply H, list_elem_of_here).
    by apply elem_of_nil in Hb.
  - assert (Ha : a ∈ []) by (apply H, list_elem_of_here).
    by apply elem_of_nil in Ha.
Qed.

(** X10: a test name outside the six known ones makes
    [validate_sac_content] raise [ValueError] before any header value is
    looked at, unless ['all'] is given too: then every other name,
    known or not, is ignored. *)
Theorem validate_unrecognized_test hf hi hs data tests t :
  t ∈ tests -> t ∉ ALL ->
  validate_sac_content HD np_min np_max np_mean UTCDateTime_ok
    hf hi hs data tests
  = if inb "all" tests
    then validate_sac_content HD np_min np_max np_mean UTCDateTime_ok
           hf hi hs data ["all"]
    else Raise (ValueError "Unrecognized validataion test specified").
Proof.
  intros Hin Hout. unfold validate, validate_sac_content.
  destruct (inb "all" tests); [done|].
  destruct tests as [|a l]; [by apply elem_of_nil in Hin|].
  replace (existsb (fun itest => negb (inb itest ALL)) (a :: l)) with true; [done|].
  symmetry. apply existsb_exists. exists t. split; [by apply list_elem_of_In|].
  apply negb_true_iff. destruct (inb t ALL) eqn:E; [|done].
  by apply inb_elem_of in E.
Qed.

End TestNames.

Lemma validate_tests_as_set_witness :
  validate_sac_content sac_header one_sample one_sample one_sample any_date
    sample_hf (reltime_hi 9 0) [] None ["reftime"; "logicals"]
  = validate_sac_content sac_header one_sample one_sample one_sample any_date
      sample_hf (reltime_hi 9 0) [] None ["logicals"; "reftime"; "logicals"].
Proof.
  apply (validate_tests_as_set sac_header one_sample one_sample one_sample
           any_date sample_hf (reltime_hi 9 0) [] None
           ["reftime"; "logicals"] ["logicals"; "reftime"; "logicals"]).
  intros t. rewrite !elem_of_cons, !elem_of_nil. tauto.
Defined.

Lemma validate_unrecognized_test_witness :
  validate_sac_content sac_header one_sample one_sample one_sample any_date
    sample_hf (reltime_hi 9 0) [] None ["delta"; "npts"]
  = Raise (ValueError "Unrecognized validataion test specified").
Proof.
  apply (validate_unrecognized_test sac_header one_sample one_sample one_sample
           any_date sample_hf (reltime_hi 9 0) [] None ["delta"; "npts"] "npts").
  - apply inb_elem_of. reflexivity.
  - intros H. apply inb_elem_of in H. vm_compute in H. discriminate.
Defined.

(** ** Writing and reading back *)

Lemma byte_val_byte_of z : 0 <= z < 256 -> byte_val (byte_of z) = z.
Proof.
  intros Hz. unfold byte_val, byte_of.
  destruct (Byte.of_N (Z.to_N z)) as [b|] eqn:E; simpl.
  - apply Byte.to_of_N in E. lia.
  - apply Byte.of_N_None_iff in E. lia.
Qed.

Lemma le_decode_bytes_le v :
  0 <= v < 2 ^ 32 -> le_decode (u32_bytes_le v) = v.
Proof.
  intros Hv. unfold le_decode, u32_bytes_le. simpl.
  Z.div_mod_to_equations. lia.
Qed.

Lemma u32_bytes_le_range v :
  Forall (fun b => 0 <= b < 256) (u32_bytes_le v).
Proof.
  unfold u32_bytes_le. repeat constructor; apply Z.mod_pos_bound; lia.
Qed.

Lemma byte_val_byte_of_all bs :
  Forall (fun b => 0 <= b < 256) bs -> byte_val <$> (byte_of <$> bs) = bs.
Proof.
  induction 1 as [|b bs Hb _ IH]; [done|].
  by rewrite !fmap_cons, byte_val_byte_of, IH.
Qed.

Lemma fmap_rev {A B} (f : A -> B) l : f <$> rev l = rev (f <$> l).
Proof.
  induction l as [|x l IH]; [done|].
  rewrite fmap_cons. simpl. by rewrite fmap_app, IH.
Qed.

Lemma u32_of_bytes_to_bytes e u :
  u32_of_bytes e (u32_to_bytes e u) = u mod 2 ^ 32.
Proof.
  assert (Hr : 0 <= u mod 2 ^ 32 < 2 ^ 32) by (apply Z.mod_pos_bound; lia).
  unfold u32_of_bytes, u32_to_bytes. destruct e.
  - rewrite byte_val_byte_of_all by apply u32_bytes_le_range.
    by apply le_decode_bytes_le.
  - rewrite fmap_rev, rev_involutive,
      byte_val_byte_of_all by apply u32_bytes_le_range.
    by apply le_decode_bytes_le.
Qed.

Lemma i32_of_bytes_to_bytes e z :
  - 2 ^ 31 <= z < 2 ^ 31 -> i32_of_bytes e (u32_to_bytes e z) = z.
Proof.
  intros Hz. unfold i32_of_bytes. rewrite u32_of_bytes_to_bytes.
  unfold to_signed32. destruct (Z.ltb_spec (z mod 2 ^ 32) (2 ^ 31));
    Z.div_mod_to_equations; lia.
Qed.

Lemma u32_to_bytes_length e u : length (u32_to_bytes e u) = 4%nat.
Proof. by destruct e. Qed.

Lemma length_mjoin_const {A} k (cs : list (list A)) :
  Forall (fun c => length c = k) cs -> length (mjoin cs) = (length cs * k)%nat.
Proof.
  induction 1 as [|c cs Hc _ IH]; simpl; [done|].
  rewrite length_app, IH, Hc. lia.
Qed.

Lemma chunks_mjoin {A} k (cs : list (list A)) (rest : list A) :
  Forall (fun c => length c = k) cs ->
  chunks k (length cs) (mjoin cs ++ rest) = cs.
Proof.
  induction 1 as [|c cs Hc _ IH]; simpl; [done|].
  rewrite <- app_assoc, take_app_length', drop_app_length' by done.
  by rewrite IH.
Qed.

Lemma buffer_items_mjoin {A} k (d : list Byte.byte -> A) cs :
  k <> 0%nat -> Forall (fun c => length c = k) cs ->
  buffer_items k d (mjoin cs) = Ok (d <$> cs).
Proof.
  intros Hk Hcs. unfold buffer_items.
  rewrite (length_mjoin_const k) by done.
  rewrite Nat.Div0.mod_mul, Nat.div_mul by done. simpl.
  rewrite <- (app_nil_r (mjoin cs)). by rewrite chunks_mjoin.
Qed.

Lemma tobytes_length e l : length (tobytes e l) = (length l * 4)%nat.
Proof.
  unfold tobytes. rewrite (length_mjoin_const 4), length_fmap; [done|].
  apply Forall_fmap, Forall_forall. intros u _. apply u32_to_bytes_length.
Qed.

Lemma from_buffer_f4_tobytes e l :
  Forall (fun x => 0 <= x < 2 ^ 32) l ->
  from_buffer_f4 (tobytes e l) e = Ok (mk_ndarray e l).
Proof.
  intros Hl. unfold from_buffer_f4, tobytes.
  rewrite buffer_items_mjoin; [|done|].
  - simpl. do 2 f_equal. rewrite <- list_fmap_compose.
    rewrite <- (list_fmap_id l) at 2. apply Forall_fmap_ext_1.
    eapply Forall_impl; [exact Hl|]. intros x Hx. simpl.
    rewrite u32_of_bytes_to_bytes. by apply Z.mod_small.
  - apply Forall_fmap, Forall_forall. intros u _. apply u32_to_bytes_length.
Qed.

Lemma from_buffer_i4_tobytes e l :
  Forall (fun x => - 2 ^ 31 <= x < 2 ^ 31) l ->
  from_buffer_i4 (tobytes e l) e = Ok (mk_ndarray e l).
Proof.
  intros Hl. unfold from_buffer_i4, tobytes.
  rewrite buffer_items_mjoin; [|done|].
  - simpl. do 2 f_equal. rewrite <- list_fmap_compose.
    rewrite <- (list_fmap_id l) at 2. apply Forall_fmap_ext_1.
    eapply Forall_impl; [exact Hl|]. intros x Hx. simpl.
    by apply i32_of_bytes_to_bytes.
  - apply Forall_fmap, Forall_forall. intros u _. apply u32_to_bytes_length.
Qed.

Lemma pad_right_long c n s : (n <= String.length s)%nat -> pad_right c n s = s.
Proof.
  revert s. induction n as [|n IH]; intros [|a s]; simpl; try done; try lia.
  intros H. f_equal. apply IH. lia.
Qed.

Lemma take_str_short n s : (String.length s <= n)%nat -> take_str n s = s.
Proof.
  revert s. induction n as [|n IH]; intros [|a s]; simpl; try done; try lia.
  intros H. f_equal. apply IH. lia.
Qed.

Lemma S8_store_exact s : String.length s = 8%nat -> S8_store s = s.
Proof.
  intros H. unfold S8_store.
  rewrite take_str_short by lia. apply pad_right_long. lia.
Qed.

Lemma list_byte_of_string_length s :
  length (list_byte_of_string s) = String.length s.
Proof. induction s as [|a s IH]; simpl; [done | by f_equal]. Qed.

Lemma S8_data_length hs : length (S8_data hs) = (length hs * 8)%nat.
Proof.
  unfold S8_data. rewrite (length_mjoin_const 8), length_fmap; [done|].
  apply Forall_fmap, Forall_forall. intros s _. simpl.
  by rewrite list_byte_of_string_length, S8_store_length.
Qed.

Lemma from_buffer_S8_data hs :
  Forall (fun s => String.length s = 8%nat) hs ->
  from_buffer_S8 (S8_data hs) = Ok hs.
Proof.
  intros Hhs. unfold from_buffer_S8, S8_data.
  rewrite buffer_items_mjoin; [|done|].
  - f_equal. rewrite <- list_fmap_compose.
    rewrite <- (list_fmap_id hs) at 2. apply Forall_fmap_ext_1.
    eapply Forall_impl; [exact Hhs|]. intros s Hs. simpl.
    by rewrite string_of_list_byte_of_string, S8_store_exact.
  - apply Forall_fmap, Forall_forall. intros s _. simpl.
    by rewrite list_byte_of_string_length, S8_store_length.
Qed.

Lemma f_read_exact pre chunk post p cl n :
  p = length pre -> n = Z.of_nat (length chunk) -> cl = false ->
  f_read n (mk_stream (pre ++ chunk ++ post) p cl)
  = (Ok chunk, mk_stream (pre ++ chunk ++ post) (p + length chunk) false).
Proof.
  intros -> -> ->. unfold f_read. simpl.
  replace (Z.of_nat (length chunk) <? 0) with false
    by (symmetry; apply Z.ltb_ge; lia).
  rewrite drop_app_length, Nat2Z.id, take_app_length. done.
Qed.

Lemma f_write_end mode bs s :
  closed s = false -> pos s = length (content s) ->
  writable mode = true -> appends mode = false ->
  f_write mode bs s
  = (Ok tt, mk_stream (content s ++ bs) (length (content s ++ bs)) false).
Proof.
  destruct s as [c p cl]. simpl. intros -> -> Hw Ha.
  unfold f_write. simpl. rewrite Hw, Ha. simpl.
  destruct bs as [|b bs]; [by rewrite app_nil_r|].
  rewrite Nat.sub_diag. simpl replicate. rewrite app_nil_r.
  rewrite take_ge, drop_ge by (simpl; lia).
  by rewrite app_nil_r, length_app.
Qed.

Lemma io_try_Ok {A} (body : io A) handler s a s' :
  body s = (Ok a, s') -> io_try body handler s = (Ok a, s').
Proof. intros H. unfold io_try. by rewrite H. Qed.

Lemma close_if_open is_file_name c p :
  close_if is_file_name (mk_stream c p false) = (Ok tt, mk_stream c p is_file_name).
Proof. by destruct is_file_name. Qed.

Lemma f_write_at_end mode bs c :
  writable mode = true -> appends mode = false ->
  f_write mode bs (mk_stream c (length c) false)
  = (Ok tt, mk_stream (c ++ bs) (length (c ++ bs)) false).
Proof. intros. by apply f_write_end. Qed.

Lemma write_header_end mode hf hi hs c :
  writable mode = true -> appends mode = false ->
  (_ ← f_write mode (f4_data hf); _ ← f_write mode (i4_data hi);
   f_write mode (S8_data hs)) (mk_stream c (length c) false)
  = (Ok tt, mk_stream (c ++ sac_header_bytes hf hi hs)
              (length (c ++ sac_header_bytes hf hi hs)) false).
Proof.
  intros Hw Ha.
  rewrite (io_bind_Ok _ _ _ _ _ (f_write_at_end mode _ _ Hw Ha)).
  rewrite (io_bind_Ok _ _ _ _ _ (f_write_at_end mode _ _ Hw Ha)).
  rewrite (f_write_at_end mode _ _ Hw Ha).
  unfold sac_header_bytes. by rewrite <- !app_assoc.
Qed.

Lemma write_sac_file_new is_file_name hf hi hs d :
  write_sac_file (Some "wb+") is_file_name hf hi hs (Some d) None
    (mk_stream [] 0 false)
  = (Ok tt, mk_stream (sac_file_bytes hf hi hs d)
              (length (sac_file_bytes hf hi hs d)) is_file_name).
Proof.
  unfold write_sac_file.
  rewrite (io_bind_Ok (mret tt) _ _ tt _ eq_refl).
  rewrite (io_bind_Ok (mret (hf, hi, Some d)) _ _ _ _ eq_refl).
  erewrite (io_bind_Ok (io_try _ _)).
  - apply close_if_open.
  - apply io_try_Ok.
    change (mk_stream [] 0 false) with (mk_stream [] (length (@nil Byte.byte)) false).
    rewrite (io_bind_Ok _ _ _ _ _ (f_write_at_end (Some "wb+") _ _ eq_refl eq_refl)).
    rewrite (io_bind_Ok _ _ _ _ _ (f_write_at_end (Some "wb+") _ _ eq_refl eq_refl)).
    rewrite (io_bind_Ok _ _ _ _ _ (f_write_at_end (Some "wb+") _ _ eq_refl eq_refl)).
    rewrite (f_write_at_end (Some "wb+") _ _ eq_refl eq_refl).
    simpl. unfold sac_file_bytes. by rewrite <- !app_assoc.
Qed.

Lemma f_read_chunk s pre chunk post n :
  closed s = false -> content s = pre ++ chunk ++ post ->
  pos s = length pre -> n = Z.of_nat (length chunk) ->
  f_read n s = (Ok chunk, mk_stream (content s) (pos s + length chunk) false).
Proof.
  destruct s as [c p cl]. simpl. intros -> -> -> ->.
  by apply f_read_exact.
Qed.

Lemma astype_same {A} e (a : ndarray A) : dtype_order a = e -> astype e a = a.
Proof. destruct a. simpl. by intros ->. Qed.

Lemma write_sac_file_byteorder mode is_file_name hf hi hs d e s :
  write_sac_file mode is_file_name hf hi hs (Some d)
    (Some (byteorder_name e)) s
  = write_sac_file mode is_file_name (astype e hf) (astype e hi) hs
      (Some (astype e d)) None s.
Proof. by destruct e. Qed.

Lemma read_header_arrays_written e lf li hs rest :
  length lf = 70%nat -> length li = 40%nat -> length hs = 24%nat ->
  Forall (fun x => 0 <= x < 2 ^ 32) lf ->
  Forall (fun x => - 2 ^ 31 <= x < 2 ^ 31) li ->
  Forall (fun s => String.length s = 8%nat) hs ->
  let bytes := sac_header_bytes (mk_ndarray e lf) (mk_ndarray e li) hs ++ rest in
  read_header_arrays e (mk_stream bytes 0 false)
  = (Ok (mk_ndarray e lf, mk_ndarray e li, hs), mk_stream bytes 632 false).
Proof.
  intros Lf Li Ls Rf Ri Rs bytes.
  assert (Hb : bytes = tobytes e lf ++ tobytes e li ++ S8_data hs ++ rest).
  { unfold bytes, sac_header_bytes, f4_data, i4_data. simpl.
    by rewrite <- !app_assoc. }
  unfold read_header_arrays.
  erewrite (io_bind_Ok (f_read (4 * 70))); cycle 1.
  { apply (f_read_chunk _ [] (tobytes e lf) (tobytes e li ++ S8_data hs ++ rest));
      [done | exact Hb | done | rewrite tobytes_length; lia]. }
  erewrite (io_bind_Ok (lift _)); cycle 1.
  { unfold lift. by rewrite from_buffer_f4_tobytes. }
  erewrite (io_bind_Ok (f_read (4 * 40))); cycle 1.
  { apply (f_read_chunk _ (tobytes e lf) (tobytes e li) (S8_data hs ++ rest));
      [done | exact Hb | done | rewrite tobytes_length; lia]. }
  erewrite (io_bind_Ok (lift _)); cycle 1.
  { unfold lift. by rewrite from_buffer_i4_tobytes. }
  erewrite (io_bind_Ok (f_read (24 * 8))); cycle 1.
  { apply (f_read_chunk _ (tobytes e lf ++ tobytes e li) (S8_data hs) rest);
      [done | by rewrite Hb, <- app_assoc | |rewrite S8_data_length; lia].
    simpl. by rewrite length_app. }
  erewrite (io_bind_Ok (lift _)); cycle 1.
  { unfold lift. by rewrite from_buffer_S8_data. }
  cbv [mret io_ret]. simpl. do 2 f_equal.
  rewrite !tobytes_length, S8_data_length. lia.
Qed.

Section WriteRead.

Variable HD : header_tables.
Variable fs : string -> option (list Byte.byte).
Variable can_open : string -> bool.

Lemma int_field_lookup hi hdr v :
  int_field HD hi hdr = Ok v ->
  exists i, index (INTHDRS HD) hdr = Ok i /\ items hi !! i = Some v.
Proof.
  unfold int_field. intros H. apply bind_Ok in H as (i & Hi & H).
  exists i. split; [done|]. unfold getitem in H.
  by destruct (items hi !! i); [injection H as ->|].
Qed.

(** X11: a binary file written by [write_sac] from well-formed arrays (70
    floats, 40 ints, 24 strings of 8 characters, a valid [nvhdr], [npts]
    equal to the number of samples) holds [632 + 4 * npts] bytes, and
    [read_sac] with no byte order given reads it back on any platform, with
    or without the size check: the values are those written, in the byte
    order [write_sac] was asked for (or that of the arrays, when they agree
    and none was asked for). *)
Theorem write_read_sac_roundtrip name hf hi hs data byteorder e :
  can_open name = true ->
  length (items hf) = 70%nat -> length (items hi) = 40%nat ->
  length hs = 24%nat ->
  Forall (fun x => 0 <= x < 2 ^ 32) (items hf) ->
  Forall (fun x => - 2 ^ 31 <= x < 2 ^ 31) (items hi) ->
  Forall (fun s => String.length s = 8%nat) hs ->
  Forall (fun x => 0 <= x < 2 ^ 32) (items data) ->
  byteorder = Some (byteorder_name e) \/
    (byteorder = None /\ dtype_order hf = e /\ dtype_order hi = e /\
     dtype_order data = e) ->
  is_valid_byteorder HD hi = Ok true ->
  int_field HD hi "npts" = Ok (Z.of_nat (length (items data))) ->
  let bytes := sac_file_bytes (astype e hf) (astype e hi) hs (astype e data) in
  write_sac fs can_open (DestPath name) hf hi hs (Some data) byteorder
  = (Ok tt, Some (mk_stream bytes (length bytes) true)) /\
  Z.of_nat (length bytes) = 632 + 4 * Z.of_nat (length (items data)) /\
  forall sys fs' headonly checksize,
    fs' name = Some bytes ->
    read_sac HD sys fs' (Path name) headonly None checksize
    = (Ok (astype e hf, astype e hi, hs,
           if headonly then None else Some (astype e data)),
       Some (mk_stream bytes (if headonly then 632%nat else length bytes) true)).
Proof.
  intros Hopen Lf Li Ls Rf Ri Rs Rd Hord Hvalid Hnpts bytes.
  assert (Hlen : length bytes = (632 + length (items data) * 4)%nat).
  { unfold bytes, sac_file_bytes, f4_data, i4_data.
    rewrite !length_app, !tobytes_length, S8_data_length. simpl.
    rewrite Lf, Li, Ls. lia. }
  split; [|split; [lia|]].
  - unfold write_sac, open_dest. rewrite Hopen. simpl.
    destruct Hord as [->|(-> & Ef & Ei & Ed)].
    + by rewrite write_sac_file_byteorder, write_sac_file_new.
    + rewrite write_sac_file_new. unfold bytes.
      by rewrite !astype_same.
  - intros sys fs' headonly checksize Hfile.
    assert (Hop : open_rb fs' (Path name) = Ok (mk_stream bytes 0 false, true))
      by (unfold open_rb; by rewrite Hfile).
    assert (Hb : bytes = sac_header_bytes (mk_ndarray e (items hf))
                           (mk_ndarray e (items hi)) hs
                         ++ f4_data (astype e data)).
    { unfold bytes, sac_file_bytes, sac_header_bytes, astype.
      by rewrite <- !app_assoc. }
    pose proof (read_header_arrays_written e (items hf) (items hi) hs
                  (f4_data (astype e data)) Lf Li Ls Rf Ri Rs) as Hread.
    simpl in Hread. rewrite <- Hb in Hread.
    rewrite (read_sac_detected HD fs' sys (Path name) _ true headonly checksize
               e _ _ _ _ Hop Hread Hvalid).
    destruct (int_field_lookup _ _ _ Hnpts) as (i & Hidx & Hlook).
    rewrite (read_sac_rest_checked HD true headonly checksize
               (mk_ndarray e (items hf)) (mk_ndarray e (items hi)) hs i _ _
               Lf Li Ls Hidx Hlook).
    set (npts := Z.of_nat (length (items data))) in *.
    set (s := mk_stream bytes 632 false).
    assert (Hsize : (if checksize then check_file_size npts else mret tt) s
                    = (Ok tt, s)).
    { destruct checksize; [|done]. rewrite check_file_size_spec by done.
      simpl. rewrite Hlen.
      by replace (Z.of_nat (632 + length (items data) * 4) =? 632 + 4 * npts)
        with true by (symmetry; apply Z.eqb_eq; lia). }
    rewrite (io_bind_Ok _ _ _ _ _ Hsize).
    destruct headonly.
    + by rewrite (io_bind_Ok (mret None) _ _ None _ eq_refl).
    + assert (Hdata : f_read (npts * 4) s
                = (Ok (f4_data (astype e data)), mk_stream bytes (length bytes) false)).
      { rewrite (f_read_chunk s (sac_header_bytes (mk_ndarray e (items hf))
                                   (mk_ndarray e (items hi)) hs)
                   (f4_data (astype e data)) []).
        - simpl. do 2 f_equal. unfold f4_data. rewrite tobytes_length, Hlen.
          simpl. lia.
        - done.
        - simpl. by rewrite app_nil_r.
        - simpl. unfold sac_header_bytes, f4_data, i4_data.
          rewrite !length_app, !tobytes_length, S8_data_length. simpl. lia.
        - unfold f4_data. rewrite tobytes_length. simpl. lia. }
      erewrite (io_bind_Ok (_ ≫= _)); cycle 1.
      { rewrite (io_bind_Ok _ _ _ _ _ Hdata).
        erewrite (io_bind_Ok (lift _)); cycle 1.
        { unfold lift, f4_data. simpl. by rewrite from_buffer_f4_tobytes. }
        simpl. unfold npts. rewrite Z.eqb_refl. reflexivity. }
      reflexivity.
Qed.

End WriteRead.

Lemma write_read_sac_roundtrip_witness :
  read_sac sac_header Little (one_file "out.sac" written_big) (Path "out.sac")
    false None true
  = (Ok (astype Big sample_hf, astype Big sample_hi_array, sample_hs,
         Some (astype Big sample_data)),
     Some (mk_stream written_big (length written_big) true)).
Proof.
  destruct (write_read_sac_roundtrip sac_header no_files all_files_writable
              "out.sac" sample_hf sample_hi_array sample_hs sample_data
              (Some "big") Big) as (_ & _ & Hread);
    [reflexivity | reflexivity | reflexivity | reflexivity
    | apply Forall_replicate; lia
    | repeat first [apply Forall_nil_2 | apply Forall_cons_2; [lia|]]
    | by apply Forall_replicate
    | repeat first [apply Forall_nil_2 | apply Forall_cons_2; [lia|]]
    | by left | reflexivity | reflexivity |].
  apply (Hread Little (one_file "out.sac" written_big) false true).
  reflexivity.
Defined.

(** ** Rewriting the header of a file *)

Lemma f_write_over mode bs pre c :
  writable mode = true -> appends mode = false ->
  f_write mode bs (mk_stream (pre ++ drop (length pre) c) (length pre) false)
  = (Ok tt, mk_stream ((pre ++ bs) ++ drop (length (pre ++ bs)) c)
              (length (pre ++ bs)) false).
Proof.
  intros Hw Ha. unfold f_write. simpl. rewrite Hw, Ha. simpl.
  destruct bs as [|b bs]; [by rewrite app_nil_r|].
  replace (length pre - length (pre ++ drop (length pre) c))%nat with 0%nat
    by (rewrite length_app; lia).
  simpl replicate. rewrite app_nil_r.
  rewrite take_app_length, drop_app_add, drop_drop, <- app_assoc.
  by rewrite !length_app.
Qed.

Section HeaderOnly.

Variable fs : string -> option (list Byte.byte).
Variable can_open : string -> bool.

Lemma write_sac_file_header_only hf hi hs old :
  write_sac_file (Some "rb+") true hf hi hs None None (mk_stream old 0 false)
  = (Ok tt, mk_stream (sac_header_bytes hf hi hs
                       ++ drop (length (sac_header_bytes hf hi hs)) old)
              (length (sac_header_bytes hf hi hs)) true).
Proof.
  unfold write_sac_file.
  rewrite (io_bind_Ok (mret tt) _ _ tt _ eq_refl).
  rewrite (io_bind_Ok (mret (hf, hi, None)) _ _ _ _ eq_refl).
  erewrite (io_bind_Ok (io_try _ _)).
  - apply close_if_open.
  - apply io_try_Ok.
    rewrite (io_bind_Ok _ _ _ _ _
               (f_write_over (Some "rb+") _ [] old eq_refl eq_refl)).
    rewrite (io_bind_Ok _ _ _ _ _
               (f_write_over (Some "rb+") _ _ old eq_refl eq_refl)).
    rewrite (io_bind_Ok _ _ _ _ _
               (f_write_over (Some "rb+") _ _ old eq_refl eq_refl)).
    cbv [mret io_ret]. unfold sac_header_bytes. simpl app.
    by rewrite <- !app_assoc.
Qed.


(** X14: an unrecognised byte order is refused with [ValueError] only after
    the destination has been opened: when data is written to a path, the
    file at that path is left empty, and open. *)
Theorem write_sac_bad_byteorder name hf hi hs data b :
  can_open name = true ->
  b <> "" -> b <> "little" -> b <> "big" ->
  write_sac fs can_open (DestPath name) hf hi hs (Some data) (Some b)
  = (Raise (ValueError "Unrecognized byteorder"), Some (mk_stream [] 0 false)).
Proof.
  intros Hopen H0 H1 H2. unfold write_sac, open_dest. rewrite Hopen. simpl.
  unfold write_sac_file.
  rewrite (io_bind_Ok (mret tt) _ _ tt _ eq_refl).
  apply String.eqb_neq in H0, H1, H2. by rewrite H0, H1, H2.
Qed.

End HeaderOnly.


Lemma write_sac_bad_byteorder_witness :
  write_sac no_files all_files_writable (DestPath "out.sac") sample_hf
    sample_hi_array sample_hs (Some sample_data) (Some "middle")
  = (Raise (ValueError "Unrecognized byteorder"), Some (mk_stream [] 0 false)).
Proof.
  apply (write_sac_bad_byteorder no_files all_files_writable "out.sac"
           sample_hf sample_hi_array sample_hs sample_data "middle");
    [reflexivity | discriminate | discriminate | discriminate].
Defined.

(** ** write_sac and the caller's file object *)

Lemma stays_bind {A B} (m : io A) (k : A -> io B) :
  keeps_closed_state m -> (forall a, keeps_closed_state (k a)) ->
  keeps_closed_state (m ≫= k).
Proof.
  intros Hm Hk s r s'. unfold mbind, io_bind.
  destruct (m s) as [[a|e] s1] eqn:E; intros H.
  - apply Hm in E. apply Hk in H. congruence.
  - injection H as <- <-. by apply Hm in E.
Qed.

Lemma stays_mret {A} (a : A) : keeps_closed_state (mret a).
Proof. by intros s r s' [= <- <-]. Qed.

Lemma stays_raise {A} e : keeps_closed_state (raise e : io A).
Proof. by intros s r s' [= <- <-]. Qed.

Lemma stays_f_write mode bs : keeps_closed_state (f_write mode bs).
Proof.
  intros s r s'. unfold f_write. destruct (closed s) eqn:E.
  - by intros [= <- <-].
  - destruct (negb (writable mode)); [by intros [= <- <-]|].
    destruct bs; intros [= <- <-]; simpl; congruence.
Qed.

Lemma stays_try {A} (body : io A) handler :
  keeps_closed_state body -> (forall e, keeps_closed_state (handler e)) ->
  keeps_closed_state (io_try body handler).
Proof.
  intros Hb Hh s r s'. unfold io_try.
  destruct (body s) as [[a|e] s1] eqn:E; intros H.
  - injection H as <- <-. by apply Hb in E.
  - apply Hb in E. apply Hh in H. congruence.
Qed.

Lemma stays_close_if_false : keeps_closed_state (close_if false).
Proof. apply stays_mret. Qed.

Lemma write_sac_file_stays mode hf hi hs data byteorder :
  keeps_closed_state (write_sac_file mode false hf hi hs data byteorder).
Proof.
  unfold write_sac_file.
  apply stays_bind; [destruct data, mode; (apply stays_mret || apply stays_raise)|].
  intros _. apply stays_bind.
  { destruct byteorder as [b|]; [|apply stays_mret].
    destruct (String.eqb b ""); [apply stays_mret|].
    apply stays_bind; [|intros ?; apply stays_mret].
    destruct (String.eqb b "little"); [apply stays_mret|].
    destruct (String.eqb b "big"); [apply stays_mret | apply stays_raise]. }
  intros [[hf' hi'] data']. apply stays_bind; [|intros _; apply stays_close_if_false].
  apply stays_try.
  - repeat (apply stays_bind; [apply stays_f_write | intros _]).
    destruct data'; [apply stays_f_write | apply stays_mret].
  - intros e. apply stays_bind; [apply stays_close_if_false|].
    intros _. destruct mode; apply stays_raise.
Qed.

Section WriteCaller.

Variable fs : string -> option (list Byte.byte).
Variable can_open : string -> bool.

(** X13: [write_sac] never closes a file object supplied by the caller,
    whether the write goes through or raises. *)
Theorem write_sac_keeps_caller_file f mode hf hi hs data byteorder r f' :
  write_sac fs can_open (DestObj f mode) hf hi hs data byteorder = (r, Some f') ->
  closed f' = closed f.
Proof.
  unfold write_sac, open_dest.
  destruct (write_sac_file _ _ _ _ _ _ _ f) as [r0 f0] eqn:E.
  intros [= <- <-]. by apply write_sac_file_stays in E.
Qed.

End WriteCaller.

Lemma write_sac_keeps_caller_file_witness :
  closed (mk_stream written_big (length written_big) false)
  = closed (mk_stream [] 0 false).
Proof.
  apply (write_sac_keeps_caller_file no_files all_files_writable
           (mk_stream [] 0 false) None sample_hf sample_hi_array sample_hs
           (Some sample_data) (Some "big") (Ok tt)).
  reflexivity.
Defined.

(** ** dict_to_header_arrays *)

Lemma bind_Raise_not_Ok {A B} (r : result A) (k : A -> result B) b :
  (forall a, r = Ok a -> k a <> Ok b) -> r ≫= k <> Ok b.
Proof. destruct r as [a|e]; simpl; [by intros H; apply H | discriminate]. Qed.

Lemma store_at_Ok {A} (l : list A) i x l' :
  store_at l i x = Ok l' ->
  exists v, x = Ok v /\ l' = <[i := v]> l /\ (i < length l)%nat.
Proof.
  unfold store_at, getitem. destruct (l !! i) as [y|] eqn:E; [|discriminate].
  simpl. destruct x as [v|]; [|discriminate]. simpl. unfold setitem.
  destruct (decide (i < length l)%nat); [|discriminate].
  intros [= <-]. by exists v.
Qed.

Lemma index_lookup l x i : index l x = Ok i -> l !! i = Some x.
Proof. intros H. by apply index_Ok in H as [? _]. Qed.

Section DictToArrays.

Variable HD : header_tables.
Variable sys_byteorder : endian.
Variable store_f4 : pyval -> result f4.
Variable store_i4 : pyval -> result Z.
Variable store_S8 : pyval -> result string.
Variable not_subscriptable : pyval -> exn.

Local Abbreviation fill :=
  (fill_arrays HD store_f4 store_i4 store_S8 not_subscriptable).
Local Abbreviation to_arrays :=
  (dict_to_header_arrays HD sys_byteorder store_f4 store_i4 store_S8
     not_subscriptable).

Lemma fill_unknown_key kvs k arrs r :
  k ∈ (fst <$> kvs) ->
  k ∉ FLOATHDRS HD -> k ∉ INTHDRS HD -> k ∉ STRHDRS HD ->
  fill kvs arrs <> Ok r.
Proof.
  intros Hk Hf Hi Hs. revert arrs.
  induction kvs as [|[hdr value] rest IH]; intros [[hf hi] hs];
    [by apply elem_of_nil in Hk|].
  rewrite fmap_cons in Hk. apply elem_of_cons in Hk as [Heq|Hk].
  - simpl in Heq. subst hdr. unfold fill. simpl.
    rewrite <- inb_elem_of in Hf, Hi, Hs.
    apply not_true_is_false in Hf, Hi, Hs. by rewrite Hf, Hi, Hs.
  - unfold fill. simpl. apply bind_Raise_not_Ok. intros arrs' _.
    by apply IH.
Qed.

(** X15: a dictionary with a key that is no float, int or string header
    name is never converted: [dict_to_header_arrays] raises, wherever the key
    stands among the items and whatever the other values are. *)
Theorem dict_to_header_arrays_unknown_key kvs byteorder k r :
  k ∈ (fst <$> kvs) ->
  k ∉ FLOATHDRS HD -> k ∉ INTHDRS HD -> k ∉ STRHDRS HD ->
  dict_to_header_arrays HD sys_byteorder store_f4 store_i4 store_S8
    not_subscriptable (Some kvs) byteorder <> Ok r.
Proof.
  intros Hk Hf Hi Hs. unfold to_arrays, dict_to_header_arrays.
  apply bind_Raise_not_Ok. intros arrays _.
  destruct arrays as [|[hf| |] [|[|hi|] [|[| |hs] [|? ?]]]]; try discriminate.
  apply bind_Raise_not_Ok. intros arrs Hfill.
  by apply (fill_unknown_key kvs k _ arrs) in Hfill.
Qed.

Lemma fill_untouched kvs name hf hi hs hf' hi' hs' :
  fill kvs (hf, hi, hs) = Ok (hf', hi', hs') ->
  name ∉ (fst <$> kvs) ->
  (forall i, index (FLOATHDRS HD) name = Ok i -> hf' !! i = hf !! i) /\
  (forall i, index (INTHDRS HD) name = Ok i -> hi' !! i = hi !! i) /\
  length hf' = length hf /\ length hi' = length hi /\ length hs' = length hs.
Proof.
  revert hf hi hs. induction kvs as [|[hdr value] rest IH]; intros hf hi hs.
  - by intros [= <- <- <-].
  - intros H Hname. rewrite fmap_cons in Hname.
    apply not_elem_of_cons in Hname as [Hne Hname]. simpl in Hne.
    unfold fill in H. simpl in H.
    apply bind_Ok in H as ([[hf1 hi1] hs1] & Hstep & H).
    apply IH in H as (Hf & Hi & Lf & Li & Ls); [|done].
    assert (Hone :
      (forall i, index (FLOATHDRS HD) name = Ok i -> hf1 !! i = hf !! i) /\
      (forall i, index (INTHDRS HD) name = Ok i -> hi1 !! i = hi !! i) /\
      length hf1 = length hf /\ length hi1 = length hi /\
      length hs1 = length hs).
    { destruct (inb hdr (FLOATHDRS HD)).
      { apply bind_Ok in Hstep as (j & Hj & Hstep).
        apply bind_Ok in Hstep as (l & Hl & Hstep). injection Hstep as <- <- <-.
        apply store_at_Ok in Hl as (v & _ & -> & _).
        rewrite length_insert. repeat split; try done.
        intros i Hi'. apply list_lookup_insert_ne. intros ->.
        apply index_lookup in Hj, Hi'. congruence. }
      destruct (inb hdr (INTHDRS HD)).
      { apply bind_Ok in Hstep as (j & Hj & Hstep).
        apply bind_Ok in Hstep as (l & Hl & Hstep). injection Hstep as <- <- <-.
        apply store_at_Ok in Hl as (v & _ & -> & _).
        rewrite length_insert. repeat split; try done.
        intros i Hi'. apply list_lookup_insert_ne. intros ->.
        apply index_lookup in Hj, Hi'. congruence. }
      destruct (inb hdr (STRHDRS HD)); [|discriminate].
      destruct (String.eqb hdr "kevnm").
      - apply bind_Ok in Hstep as (halves & _ & Hstep).
        apply bind_Ok in Hstep as (l1 & Hl1 & Hstep).
        apply bind_Ok in Hstep as (l2 & Hl2 & Hstep). injection Hstep as <- <- <-.
        unfold setitem in Hl1, Hl2.
        destruct (decide _) in Hl1; [|discriminate]. injection Hl1 as <-.
        destruct (decide _) in Hl2; [|discriminate]. injection Hl2 as <-.
        by rewrite !length_insert.
      - apply bind_Ok in Hstep as (j & Hj & Hstep).
        apply bind_Ok in Hstep as (l & Hl & Hstep). injection Hstep as <- <- <-.
        apply store_at_Ok in Hl as (v & _ & -> & _).
        by rewrite length_insert. }
    destruct Hone as (Hf1 & Hi1 & Lf1 & Li1 & Ls1).
    repeat split; try congruence.
    + intros i Hi'. by rewrite Hf, Hf1.
    + intros i Hi'. by rewrite Hi, Hi1.
Qed.

(** X16: a float or int field whose name is not a key of the dictionary
    keeps the value [init_header_arrays] gives it, and the arrays keep their
    lengths and byte order, whenever [dict_to_header_arrays] returns. *)
Theorem dict_to_header_arrays_untouched kvs byteorder name hf hi hs hf0 hi0 hs0 :
  dict_to_header_arrays HD sys_byteorder store_f4 store_i4 store_S8
    not_subscriptable (Some kvs) byteorder = Ok (hf, hi, hs) ->
  dict_to_header_arrays HD sys_byteorder store_f4 store_i4 store_S8
    not_subscriptable None byteorder = Ok (hf0, hi0, hs0) ->
  name ∉ (fst <$> kvs) ->
  (forall i, index (FLOATHDRS HD) name = Ok i ->
     items hf !! i = items hf0 !! i) /\
  (forall i, index (INTHDRS HD) name = Ok i ->
     items hi !! i = items hi0 !! i) /\
  dtype_order hf = dtype_order hf0 /\ dtype_order hi = dtype_order hi0 /\
  length (items hf) = length (items hf0) /\
  length (items hi) = length (items hi0) /\ length hs = length hs0.
Proof.
  unfold to_arrays, dict_to_header_arrays. intros H H0 Hname.
  destruct (init_header_arrays _ _ _ _) as [arrays|]; [|discriminate].
  simpl in H, H0.
  destruct arrays as [|[a| |] [|[|b|] [|[| |c] [|? ?]]]]; try discriminate.
  injection H0 as <- <- <-.
  apply bind_Ok in H as ([[lf li] ls] & Hfill & H). injection H as <- <- <-.
  apply (fill_untouched _ name) in Hfill as (Hf & Hi & Lf & Li & Ls); [|done].
  by repeat split.
Qed.

End DictToArrays.

(** ** header_arrays_to_dict *)

Lemma foldl_insert_lookup (m : gmap string pyval) kvs k :
  foldl (fun m kv => <[fst kv := snd kv]> m) m kvs !! k
  = match dict_of kvs !! k with Some v => Some v | None => m !! k end.
Proof.
  unfold dict_of. induction kvs as [|[k' v'] kvs IH] using rev_ind; [done|].
  rewrite !foldl_app. simpl. destruct (decide (k' = k)) as [->|Hne].
  - by rewrite !lookup_insert_eq.
  - by rewrite !lookup_insert_ne.
Qed.

Lemma dict_of_app l1 l2 k :
  dict_of (l1 ++ l2) !! k
  = match dict_of l2 !! k with Some v => Some v | None => dict_of l1 !! k end.
Proof. unfold dict_of at 1. by rewrite foldl_app, foldl_insert_lookup. Qed.

Lemma dict_of_None kvs k : k ∉ (fst <$> kvs) -> dict_of kvs !! k = None.
Proof.
  unfold dict_of. induction kvs as [|[k' v'] kvs IH] using rev_ind; [done|].
  rewrite fmap_app, foldl_app. simpl. intros Hk.
  apply not_elem_of_app in Hk as [Hk Hk'].
  rewrite lookup_insert_ne; [by apply IH|].
  intros ->. apply Hk', list_elem_of_here.
Qed.

Lemma dict_of_Some kvs k v :
  NoDup (fst <$> kvs) -> (k, v) ∈ kvs -> dict_of kvs !! k = Some v.
Proof.
  unfold dict_of. induction kvs as [|[k' v'] kvs IH] using rev_ind;
    [by intros _ H; apply elem_of_nil in H|].
  rewrite fmap_app, foldl_app. simpl. intros Hnd Hin.
  apply NoDup_app in Hnd as (Hnd & Hdisj & _).
  apply elem_of_app in Hin as [Hin|Hin].
  - rewrite lookup_insert_ne; [by apply IH|]. intros ->.
    apply (Hdisj k); [|apply list_elem_of_here].
    apply list_elem_of_fmap. by exists (k, v).
  - apply list_elem_of_singleton in Hin. injection Hin as -> ->.
    apply lookup_insert_eq.
Qed.

Lemma filter_zip_keys {A} (p : string * A -> bool) names (vals : list A) :
  (fst <$> List.filter p (zip names vals)) `sublist_of` names.
Proof.
  revert vals. induction names as [|n names IH]; intros [|v vals]; simpl;
    try apply sublist_nil_l.
  destruct (p (n, v)); [rewrite fmap_cons; by apply sublist_skip|].
  by apply sublist_cons.
Qed.

Lemma filter_zip_elem {A} (p : string * A -> bool) names (vals : list A) k v :
  (k, v) ∈ List.filter p (zip names vals) <->
  (exists i, names !! i = Some k /\ vals !! i = Some v) /\ p (k, v) = true.
Proof.
  rewrite list_elem_of_In, filter_In, <- list_elem_of_In, list_elem_of_lookup.
  unfold zip. setoid_rewrite lookup_zip_with_Some. split.
  - intros [(i & x & y & [= -> ->] & Hx & Hy) Hp]. eauto.
  - intros [(i & Hx & Hy) Hp]. split; [|done]. exists i, k, v. eauto.
Qed.

Lemma traverse_lookup {A B} (f : A -> result B) l l' :
  traverse f l = Ok l' ->
  length l' = length l /\
  forall i x, l !! i = Some x -> exists y, f x = Ok y /\ l' !! i = Some y.
Proof.
  revert l'. induction l as [|a l IH]; intros l'; simpl.
  - intros [= <-]. split; [done|]. intros i x H. by destruct i.
  - intros H. apply bind_Ok in H as (y & Hy & H).
    apply bind_Ok in H as (ys & Hys & H). injection H as <-.
    destruct (IH _ Hys) as [Hlen Hlook]. split; [simpl; lia|].
    intros [|i] x Hx; simpl in *.
    + injection Hx as <-. eauto.
    + by apply Hlook.
Qed.

Lemma pairs_keys {A} (wrap : A -> pyval) p (names : list string)
    (vals : list A) (k : string) :
  k ∈ (fst <$> ((fun kv => (fst kv, wrap (snd kv))) <$>
                  List.filter p (zip names vals))) ->
  k ∈ names.
Proof.
  rewrite <- list_fmap_compose. intros Hk.
  eapply elem_of_submseteq; [exact Hk|].
  apply sublist_submseteq, (filter_zip_keys p names vals).
Qed.

Lemma pairs_lookup {A} (wrap : A -> pyval) p (names : list string)
    (vals : list A) i (name : string) v :
  NoDup names -> names !! i = Some name -> vals !! i = Some v ->
  dict_of ((fun kv => (fst kv, wrap (snd kv))) <$>
             List.filter p (zip names vals)) !! name
  = if p (name, v) then Some (wrap v) else None.
Proof.
  intros Hnd Hn Hv. destruct (p (name, v)) eqn:Hp.
  - apply dict_of_Some.
    + rewrite <- list_fmap_compose.
      apply (sublist_NoDup _ names); [done | apply filter_zip_keys].
    + apply list_elem_of_fmap. exists (name, v). split; [done|].
      apply filter_zip_elem. eauto.
  - apply dict_of_None. rewrite <- list_fmap_compose. intros Hk.
    apply list_elem_of_fmap in Hk as ([k v'] & Hk & Hin). simpl in Hk. subst k.
    apply filter_zip_elem in Hin as [(j & Hj & Hv') Hp'].
    assert (j = i) as -> by (by eapply NoDup_lookup).
    congruence.
Qed.

Lemma traverse_keys {A} (g : A -> result string) (l : list (string * A)) l' :
  traverse (fun kv => s ← g (snd kv); Ok (fst kv, PyStr s)) l = Ok l' ->
  fst <$> l' = fst <$> l.
Proof.
  revert l'. induction l as [|[k a] l IH]; intros l'; simpl.
  - by intros [= <-].
  - intros H. apply bind_Ok in H as (y & Hy & H).
    apply bind_Ok in H as (ys & Hys & H). injection H as <-.
    apply bind_Ok in Hy as (s & _ & Hy). injection Hy as <-.
    rewrite !fmap_cons. simpl. f_equal. by apply IH.
Qed.

Section ArraysToDict.

Variable HD : header_tables.
Variable decode : string -> result string.
Variable num_add : pyval -> pyval -> result pyval.

Local Abbreviation to_dict := (header_arrays_to_dict HD decode num_add).

Lemma str_pairs_keys nulls hs strs k :
  str_pairs HD decode nulls hs = Ok strs -> k ∈ (fst <$> strs) -> k ∈ STRHDRS HD.
Proof.
  unfold str_pairs. intros H Hk. apply traverse_keys in H. rewrite H in Hk.
  eapply elem_of_submseteq; [exact Hk|].
  apply sublist_submseteq, filter_zip_keys.
Qed.

Lemma str_pairs_lookup nulls hs strs i name raw :
  NoDup (STRHDRS HD) -> str_pairs HD decode nulls hs = Ok strs ->
  STRHDRS HD !! i = Some name -> hs !! i = Some raw ->
  if nulls || negb (String.eqb (S8_read raw) (SNULL HD))
  then exists s, decode (S8_read raw) = Ok s /\
         dict_of strs !! name = Some (PyStr s)
  else dict_of strs !! name = None.
Proof.
  intros Hnd H Hn Hraw. unfold str_pairs in H.
  set (p := fun kv : string * string =>
              nulls || negb (String.eqb (snd kv) (SNULL HD))) in *.
  pose proof (traverse_keys _ _ _ H) as Hkeys.
  assert (Hv : (S8_read <$> hs) !! i = Some (S8_read raw))
    by (by rewrite list_lookup_fmap, Hraw).
  change (nulls || negb (String.eqb (S8_read raw) (SNULL HD)))
    with (p (name, S8_read raw)).
  destruct (p (name, S8_read raw)) eqn:Hp.
  - assert (Hin : (name, S8_read raw)
                    ∈ List.filter p (zip (STRHDRS HD) (S8_read <$> hs)))
      by (apply filter_zip_elem; eauto).
    apply list_elem_of_lookup in Hin as [j Hj].
    destruct (traverse_lookup _ _ _ H) as [_ Hlook].
    destruct (Hlook j _ Hj) as (y & Hy & Hyj). simpl in Hy.
    apply bind_Ok in Hy as (s & Hs & Hy). injection Hy as <-.
    exists s. split; [done|]. apply dict_of_Some.
    + rewrite Hkeys.
      apply (sublist_NoDup _ (STRHDRS HD)); [done | apply filter_zip_keys].
    + by eapply list_elem_of_lookup_2.
  - apply dict_of_None. rewrite Hkeys. intros Hk.
    apply list_elem_of_fmap in Hk as ([k v'] & Hk & Hin). simpl in Hk. subst k.
    apply filter_zip_elem in Hin as [(j & Hj & Hv') Hp'].
    assert (j = i) as -> by (by eapply NoDup_lookup).
    congruence.
Qed.


End ArraysToDict.

Lemma dict_to_header_arrays_unknown_key_witness :
  dict_to_header_arrays sac_header Little sample_store_f4 sample_store_i4
    sample_store_S8 sample_not_subscriptable
    (Some [("delta", PyFloat 0x3F800000); ("bogus", PyInt 1)]) NativeCode
  <> Ok (delta_hf, fresh_hi, sample_hs).
Proof.
  apply (dict_to_header_arrays_unknown_key sac_header Little sample_store_f4
           sample_store_i4 sample_store_S8 sample_not_subscriptable
           [("delta", PyFloat 0x3F800000); ("bogus", PyInt 1)] NativeCode
           "bogus").
  - apply list_elem_of_further, list_elem_of_here.
  - intros H. apply inb_elem_of in H. vm_compute in H. discriminate.
  - intros H. apply inb_elem_of in H. vm_compute in H. discriminate.
  - intros H. apply inb_elem_of in H. vm_compute in H. discriminate.
Defined.

Lemma dict_to_header_arrays_untouched_witness :
  (forall i, index (FLOATHDRS sac_header) "npts" = Ok i ->
     items delta_hf !! i = items sample_hf !! i) /\
  (forall i, index (INTHDRS sac_header) "npts" = Ok i ->
     items fresh_hi !! i = items fresh_hi !! i) /\
  dtype_order delta_hf = dtype_order sample_hf /\
  dtype_order fresh_hi = dtype_order fresh_hi /\
  length (items delta_hf) = length (items sample_hf) /\
  length (items fresh_hi) = length (items fresh_hi) /\
  length sample_hs = length sample_hs.
Proof.
  apply (dict_to_header_arrays_untouched sac_header Little sample_store_f4
           sample_store_i4 sample_store_S8 sample_not_subscriptable
           [("delta", PyFloat 0x3F800000)] NativeCode "npts"
           delta_hf fresh_hi sample_hs sample_hf fresh_hi sample_hs).
  - vm_compute. reflexivity.
  - vm_compute. reflexivity.
  - intros H. apply inb_elem_of in H. vm_compute in H. discriminate.
Defined.


(** ** Tests of validate_sac_content compose *)

Lemma when_bind b (c k : result unit) :
  (_ ← when b c; k) = Ok tt <-> (b = true -> c = Ok tt) /\ k = Ok tt.
Proof.
  destruct b, c as [[]|e]; simpl; split; try tauto;
    try (intros [H ?]; try done; by specialize (H eq_refl)).
  all: intros H; split; [discriminate || done | done].
Qed.

Section TestsCompose.

Variable HD : header_tables.
Variable np_min np_max np_mean : list f4 -> f4.
Variable UTCDateTime_ok : Z -> Z -> Z -> Z -> Z -> Z -> bool.

Local Abbreviation validate :=
  (validate_sac_content HD np_min np_max np_mean UTCDateTime_ok).

Lemma validate_one hf hi hs data :
  validate hf hi hs data ["delta"] = check_delta HD hf /\
  validate hf hi hs data ["logicals"]
  = check_logicals HD hi ["leven"; "lpspol"; "lovrok"; "lcalda"] /\
  validate hf hi hs data ["data_hdrs"]
  = check_data_hdrs HD np_min np_max np_mean hf data /\
  validate hf hi hs data ["enums"]
  = check_enums HD hi (fst <$> ACCEPTED_VALS HD) /\
  validate hf hi hs data ["reftime"] = check_reftime HD UTCDateTime_ok hi /\
  validate hf hi hs data ["reltime"] = check_reltime HD hi.
Proof.
  unfold validate, validate_sac_content.
  repeat split;
    cbn -[check_delta check_logicals check_data_hdrs check_enums
          check_reftime check_reltime];
    by match goal with |- context [?c ≫= _] => destruct c as [[]|] end.
Qed.

(** X18: a list of known test names passes exactly when each of its tests
    passes when run alone; no test changes what another one sees. *)
Theorem validate_passes_iff_each hf hi hs data tests :
  tests <> [] -> Forall (fun t => t ∈ ALL) tests ->
  validate_sac_content HD np_min np_max np_mean UTCDateTime_ok
    hf hi hs data tests = Ok tt <->
  Forall (fun t => validate_sac_content HD np_min np_max np_mean UTCDateTime_ok
                     hf hi hs data [t] = Ok tt) tests.
Proof.
  intros Hne Hall.
  destruct (validate_one hf hi hs data) as (E1 & E2 & E3 & E4 & E5 & E6).
  assert (Hnoall : inb "all" tests = false).
  { apply not_true_is_false. intros H. apply inb_elem_of in H.
    rewrite Forall_forall in Hall. apply Hall in H.
    apply inb_elem_of in H. vm_compute in H. discriminate. }
  assert (Hknown : existsb (fun itest => negb (inb itest ALL)) tests = false).
  { apply not_true_is_false. intros H.
    apply existsb_exists in H as (t & Hin & Ht).
    apply list_elem_of_In in Hin. rewrite Forall_forall in Hall.
    apply Hall, inb_elem_of in Hin. by rewrite Hin in Ht. }
  assert (Hshape : validate hf hi hs data tests
    = (_ ← when (inb "delta" tests) (check_delta HD hf);
       _ ← when (inb "logicals" tests)
             (check_logicals HD hi ["leven"; "lpspol"; "lovrok"; "lcalda"]);
       _ ← when (inb "data_hdrs" tests)
             (check_data_hdrs HD np_min np_max np_mean hf data);
       _ ← when (inb "enums" tests)
             (check_enums HD hi (fst <$> ACCEPTED_VALS HD));
       _ ← when (inb "reftime" tests) (check_reftime HD UTCDateTime_ok hi);
       _ ← when (inb "reltime" tests) (check_reltime HD hi);
       Ok tt)).
  { unfold validate, validate_sac_content. rewrite Hnoall, Hknown.
    by destruct tests. }
  rewrite Hshape, !when_bind, Forall_forall.
  rewrite <- E1, <- E2, <- E3, <- E4, <- E5, <- E6.
  split.
  - intros (H1 & H2 & H3 & H4 & H5 & H6 & _) t Ht.
    pose proof Ht as Hin. rewrite Forall_forall in Hall. apply Hall in Ht.
    apply inb_elem_of in Hin.
    repeat (apply elem_of_cons in Ht as [->|Ht]; [auto|]).
    by apply elem_of_nil in Ht.
  - intros H. repeat split; intros Hin; apply inb_elem_of in Hin; auto.
Qed.

End TestsCompose.

Lemma validate_passes_iff_each_witness :
  validate_sac_content sac_header one_sample one_sample one_sample any_date
    sample_hf fresh_hi [] None ["logicals"; "enums"] = Ok tt <->
  Forall (fun t => validate_sac_content sac_header one_sample one_sample
                     one_sample any_date sample_hf fresh_hi [] None [t] = Ok tt)
    ["logicals"; "enums"].
Proof.
  apply (validate_passes_iff_each sac_header one_sample one_sample one_sample
           any_date sample_hf fresh_hi [] None ["logicals"; "enums"]).
  - discriminate.
  - repeat (apply Forall_cons; split; [apply inb_elem_of; reflexivity|]).
    apply Forall_nil_2.
Defined.

(** ** Naming the byte order of a file *)

Section ExplicitByteorder.

Variable HD : header_tables.
Variable fs : string -> option (list Byte.byte).

(** X19: naming the byte order in which the header of a file is valid
    gives, on any platform, exactly what [read_sac] gives when left to
    detect the byte order itself. *)
Theorem read_sac_explicit_byteorder sys src f is_file_name headonly checksize
    e hf hi hs f1 :
  open_rb fs src = Ok (f, is_file_name) ->
  read_header_arrays e f = (Ok (hf, hi, hs), f1) ->
  is_valid_byteorder HD hi = Ok true ->
  read_sac HD sys fs src headonly (Some (byteorder_name e)) checksize
  = read_sac HD sys fs src headonly None checksize.
Proof.
  intros Hopen Hread Hvalid.
  rewrite (read_sac_detected HD fs sys src f is_file_name headonly checksize
             e hf hi hs f1 Hopen Hread Hvalid).
  unfold read_sac. rewrite Hopen.
  rewrite (read_sac_file_header HD sys is_file_name headonly
             (Some (byteorder_name e)) checksize e) by done.
  by rewrite (io_bind_Ok _ _ _ _ _
                (read_header_valid HD _ (byteorder_name e) e _ _ _ _ _
                   Hread Hvalid)).
Qed.

End ExplicitByteorder.

Lemma read_sac_explicit_byteorder_witness :
  read_sac sac_header Little no_files (FileObj sample_big_file) false
    (Some (byteorder_name Big)) true
  = read_sac sac_header Little no_files (FileObj sample_big_file) false None true.
Proof.
  apply (read_sac_explicit_byteorder sac_header no_files Little
           (FileObj sample_big_file) sample_big_file false false true Big
           (mk_ndarray Big (replicate 70 0xC640E400))
           (mk_ndarray Big (sample_hi 6 2))
           (replicate 24 "-12345  ") big_after_header);
    vm_compute; reflexivity.
Defined.
